(** * Scoring constants of the note-scoring pipeline

    A shallow embedding of [sourcecode/scoring/constants.py]: the explanation
    tag vocabularies with their tie-break priorities, the modeling-group id
    sets, the maximum churn rates, the note-status-history schema, the
    argument dataclasses handed between the scoring phases and the
    rescoring-rule identifiers.

    Conventions of the embedding.
    - Python [int] is [Z]; a Python [set] of ints is a [gset Z]; a [dict] with
      string keys is a [gmap string _]; a list of tuples is a list of pairs.
    - A Python [float] literal is the rational number its decimal digits
      denote ([Q]); binary rounding of the literal is not modelled.
    - A cell of a [np.double] column is an IEEE-754 value ([spec_float]), so
      that NaN is a value of the column and differs from every number.
    - An instance of a dataclass is its attribute dictionary; an attribute
      holds [None] or a reference to an object. *)

From Stdlib Require Import ZArith QArith SpecFloat Lia DecimalString DecimalZ DecimalPos.
From stdpp Require Import gmap strings list fin_maps sorting.

Local Open Scope string_scope.
Local Open Scope Z_scope.

(** ** Python built-ins used by the module *)

Module Py.

(** Order of Python on tuples [(int, str)]: lexicographic. *)
Definition tuple_le (a b : Z * string) : Prop :=
  a.1 < b.1 ∨ (a.1 = b.1 ∧ String.leb a.2 b.2 = true).

#[global] Instance tuple_le_dec a b : Decision (tuple_le a b).
Proof. unfold tuple_le. apply _. Defined.

(** [sorted(l)] on such tuples. *)
Definition sorted (l : list (Z * string)) : list (Z * string) :=
  merge_sort tuple_le l.

(** [{k: v for (k, v) in l}]: a later pair overwrites an earlier one. *)
Definition dict_of {V} (l : list (string * V)) : gmap string V :=
  foldl (λ m kv, <[kv.1 := kv.2]> m) ∅ l.

(** [enumerate(l)]. *)
Fixpoint enumerate_from {A} (i : Z) (l : list A) : list (Z * A) :=
  match l with
  | [] => []
  | x :: l' => (i, x) :: enumerate_from (i + 1) l'
  end.
Definition enumerate {A} (l : list A) : list (Z * A) := enumerate_from 0 l.

(** [s.startswith(p)]. *)
Fixpoint startswith (p s : string) : bool :=
  match p, s with
  | EmptyString, _ => true
  | String a p', String b s' => if decide (a = b) then startswith p' s' else false
  | String _ _, EmptyString => false
  end.

(** *** Classes and [@dataclass] *)

(** Type annotations of fields. *)
Inductive PyType :=
| Tstr | Tint | Tfloat | Tset
| TDataFrame
| TOptional (t : PyType)
| TClass (cls : string).

#[global] Instance PyType_eq_dec : EqDecision PyType.
Proof. solve_decision. Defined.

(** What an attribute holds: [None] or a reference to an object. *)
Inductive PyVal := PyNone | PyRef (addr : positive).

#[global] Instance PyVal_eq_dec : EqDecision PyVal.
Proof. solve_decision. Defined.

(** [self.k = v] on the attribute dictionary of [self]. *)
Definition setattr (self : gmap string PyVal) (k : string) (v : PyVal) :
  gmap string PyVal := <[k := v]> self.

(** A class statement: name, base class, annotated fields in the order of
    the class body, and methods, which update the attributes of [self]. *)
#[warnings="-register-all"]
Inductive ClassDecl :=
| Class (cname : string) (base : option ClassDecl)
        (annotations : list (string * PyType))
        (methods : list (string * (gmap string PyVal → gmap string PyVal))).

(** A field declared again keeps its place and takes the new annotation;
    a new field goes to the end. *)
Fixpoint set_field (f : string * PyType) (fs : list (string * PyType)) :
  list (string * PyType) :=
  match fs with
  | [] => [f]
  | g :: fs' => if decide (g.1 = f.1) then f :: fs' else g :: set_field f fs'
  end.

Definition class_name (c : ClassDecl) : string :=
  match c with Class n _ _ _ => n end.

(** The fields [@dataclass] gives a class: those of its base, then its own. *)
Fixpoint dataclass_fields (c : ClassDecl) : list (string * PyType) :=
  match c with
  | Class _ b ann _ =>
      foldl (λ fs f, set_field f fs)
            (match b with Some b' => dataclass_fields b' | None => [] end) ann
  end.

Fixpoint assoc {V} (k : string) (l : list (string * V)) : option V :=
  match l with
  | [] => None
  | (k', v) :: l' => if decide (k' = k) then Some v else assoc k l'
  end.

(** Lookup of a method written in a class body: the class itself, then its
    base. The methods [@dataclass] generates ([__init__], [__repr__],
    [__eq__]) and those of [object] are not part of the model. *)
Fixpoint resolve (c : ClassDecl) (m : string) :
  option (gmap string PyVal → gmap string PyVal) :=
  match c with
  | Class _ b _ ms =>
      match assoc m ms with
      | Some f => Some f
      | None => match b with Some b' => resolve b' m | None => None end
      end
  end.

(** [obj.m()] for an instance of class [c] with attributes [self] and a
    method [m] written in a class body; [None] when no class body along the
    bases has a method of that name. *)
Definition call (c : ClassDecl) (m : string) (self : gmap string PyVal) :
  option (gmap string PyVal) :=
  f ← resolve c m; Some (f self).

(** [str(i)] for an [int]: the decimal digits, after a minus sign when
    negative. *)
Definition str (i : Z) : string := NilZero.string_of_int (Z.to_int i).

(** [needle in s] on strings: [needle] occurs in [s]. *)
Fixpoint contains (needle s : string) : bool :=
  startswith needle s
  || match s with
     | EmptyString => false
     | String _ s' => contains needle s'
     end.

(** [sorted(l, key=lambda tup: tup[0])] on tuples whose first component is a
    string: only the first components are compared, and tuples with equal
    first components keep the order they had (the sort of Python is stable). *)
Fixpoint insert_by_first {V} (x : string * V) (l : list (string * V)) :
  list (string * V) :=
  match l with
  | [] => [x]
  | y :: l' => if String.leb x.1 y.1 then x :: y :: l' else y :: insert_by_first x l'
  end.

Definition sorted_by_first {V} (l : list (string * V)) : list (string * V) :=
  foldr insert_by_first [] l.

(** The order [sorted_by_first] puts the tuples in: ascending first
    components. *)
Definition by_first {V} (a b : string * V) : Prop := String.leb a.1 b.1 = true.

End Py.

(** ** constants.py *)

Module constants.

(** *** Explanation tags *)
Definition minRatingsToGetTag : Z := 2.
Definition minTagsNeededForStatus : Z := 2.

(** *** Max flip rates *)
Definition prescoringAllUnlockedNotesMaxCrhChurn : Q := 0.04.
Definition finalNotesWithNewRatingsMaxCrhChurn : Q := 0.40.
Definition finalNotesThatJustFlippedStatusMaxCrhChurn : Q := 1e8.


(** *** Scoring groups *)
Definition coreGroups : gset Z :=
  {[1; 2; 3; 6; 8; 9; 10; 11; 13; 14; 19; 21; 25]}.
Definition expansionGroups : gset Z :=
  {[0; 15; 17; 24; 29; 30]} ∪ {[4; 5; 7; 12; 26]} ∪ {[27]} ∪ {[16; 20; 22; 23; 28]}.
Definition expansionPlusGroups : gset Z := {[18]}.

(** *** Note status labels *)
Definition currentlyRatedHelpful := "CURRENTLY_RATED_HELPFUL".
Definition currentlyRatedNotHelpful := "CURRENTLY_RATED_NOT_HELPFUL".
Definition needsMoreRatings := "NEEDS_MORE_RATINGS".

(** *** Helpful tags *)
Definition helpfulOtherTagKey := "helpfulOther".

Definition helpfulTagsAndTieBreakOrder : list (Z * string) :=
  [ (0, helpfulOtherTagKey);
    (8, "helpfulInformative");
    (7, "helpfulClear");
    (3, "helpfulEmpathetic");
    (4, "helpfulGoodSources");
    (2, "helpfulUniqueContext");
    (5, "helpfulAddressesClaim");
    (6, "helpfulImportantContext");
    (1, "helpfulUnbiasedLanguage") ].
Definition helpfulTagsTSVOrder : list string :=
  map snd helpfulTagsAndTieBreakOrder.
Definition helpfulTagsTiebreakOrder : list string :=
  map snd (Py.sorted helpfulTagsAndTieBreakOrder).

(** *** Not-helpful tags *)
Definition notHelpfulIncorrectTagKey := "notHelpfulIncorrect".
Definition notHelpfulOtherTagKey := "notHelpfulOther".
Definition notHelpfulSpamHarassmentOrAbuseTagKey := "notHelpfulSpamHarassmentOrAbuse".
Definition notHelpfulArgumentativeOrBiasedTagKey := "notHelpfulArgumentativeOrBiased".
Definition notHelpfulHardToUnderstandKey := "notHelpfulHardToUnderstand".
Definition notHelpfulNoteNotNeededKey := "notHelpfulNoteNotNeeded".
Definition notHelpfulSourcesMissingOrUnreliableTagKey :=
  "notHelpfulSourcesMissingOrUnreliable".
Definition notHelpfulIrrelevantSourcesTagKey := "notHelpfulIrrelevantSources".
Definition notHelpfulOpinionSpeculationOrBiasTagKey :=
  "notHelpfulOpinionSpeculationOrBias".
Definition notHelpfulMissingKeyPointsTagKey := "notHelpfulMissingKeyPoints".
Definition notHelpfulOutdatedTagKey := "notHelpfulOutdated".
Definition notHelpfulOffTopicTagKey := "notHelpfulOffTopic".
Definition notHelpfulOpinionSpeculationTagKey := "notHelpfulOpinionSpeculation".

(** In TSV order, with the indices of the tie-break order. *)
Definition notHelpfulTagsAndTieBreakOrder : list (Z * string) :=
  [ (0, notHelpfulOtherTagKey);
    (8, notHelpfulIncorrectTagKey);
    (2, notHelpfulSourcesMissingOrUnreliableTagKey);
    (4, notHelpfulOpinionSpeculationOrBiasTagKey);
    (5, notHelpfulMissingKeyPointsTagKey);
    (12, notHelpfulOutdatedTagKey);
    (10, notHelpfulHardToUnderstandKey);
    (7, notHelpfulArgumentativeOrBiasedTagKey);
    (9, notHelpfulOffTopicTagKey);
    (11, notHelpfulSpamHarassmentOrAbuseTagKey);
    (1, notHelpfulIrrelevantSourcesTagKey);
    (3, notHelpfulOpinionSpeculationTagKey);
    (6, notHelpfulNoteNotNeededKey) ].
Definition notHelpfulTagsTSVOrder : list string :=
  map snd notHelpfulTagsAndTieBreakOrder.
Definition notHelpfulTagsTiebreakOrder : list string :=
  map snd (Py.sorted notHelpfulTagsAndTieBreakOrder).
Definition notHelpfulTagsTiebreakMapping : gmap string Z :=
  Py.dict_of (map (λ pt : Z * string, (pt.2, pt.1)) notHelpfulTagsAndTieBreakOrder).
Definition notHelpfulTagsEnumMapping : gmap string Z :=
  Py.dict_of (map (λ it : Z * (Z * string), (it.2.2, it.1))
                  (Py.enumerate notHelpfulTagsAndTieBreakOrder)).

(** *** Ids and indexes *)
Definition noteIdKey := "noteId".
Definition noteAuthorParticipantIdKey := "noteAuthorParticipantId".
Definition createdAtMillisKey := "createdAtMillis".

(** *** Note status history *)
Definition timestampMillisOfNoteFirstNonNMRLabelKey := "timestampMillisOfFirstNonNMRStatus".
Definition firstNonNMRLabelKey := "firstNonNMRStatus".
Definition timestampMillisOfNoteCurrentLabelKey := "timestampMillisOfCurrentStatus".
Definition currentLabelKey := "currentStatus".
Definition timestampMillisOfNoteMostRecentNonNMRLabelKey :=
  "timestampMillisOfLatestNonNMRStatus".
Definition mostRecentNonNMRLabelKey := "mostRecentNonNMRStatus".
Definition timestampMillisOfStatusLockKey := "timestampMillisOfStatusLock".
Definition lockedStatusKey := "lockedStatus".
Definition timestampMillisOfRetroLockKey := "timestampMillisOfRetroLock".
Definition currentCoreStatusKey := "currentCoreStatus".
Definition currentExpansionStatusKey := "currentExpansionStatus".
Definition currentGroupStatusKey := "currentGroupStatus".
Definition currentDecidedByKey := "currentDecidedBy".
Definition currentModelingGroupKey := "currentModelingGroup".
Definition timestampMillisOfMostRecentStatusChangeKey :=
  "timestampMillisOfMostRecentStatusChange".

(** The column types the status-history schema uses: [np.int64], [object],
    [np.double] and the pandas ["category"] type. *)
Inductive dtype := np_int64 | py_object | np_double | category.

#[global] Instance dtype_eq_dec : EqDecision dtype.
Proof. solve_decision. Defined.

Definition noteStatusHistoryTSVColumnsAndTypes : list (string * dtype) :=
  [ (noteIdKey, np_int64);
    (noteAuthorParticipantIdKey, py_object);
    (createdAtMillisKey, np_int64);
    (timestampMillisOfNoteFirstNonNMRLabelKey, np_double);  (* double because nullable. *)
    (firstNonNMRLabelKey, category);
    (timestampMillisOfNoteCurrentLabelKey, np_double);  (* double because nullable. *)
    (currentLabelKey, category);
    (timestampMillisOfNoteMostRecentNonNMRLabelKey, np_double);  (* double because nullable. *)
    (mostRecentNonNMRLabelKey, category);
    (timestampMillisOfStatusLockKey, np_double);  (* double because nullable. *)
    (lockedStatusKey, category);
    (timestampMillisOfRetroLockKey, np_double);  (* double because nullable. *)
    (currentCoreStatusKey, category);
    (currentExpansionStatusKey, category);
    (currentGroupStatusKey, category);
    (currentDecidedByKey, category);
    (currentModelingGroupKey, np_double);  (* TODO: int *)
    (timestampMillisOfMostRecentStatusChangeKey, np_double)  (* double because nullable. *)
  ].
Definition noteStatusHistoryTSVColumns : list string :=
  map fst noteStatusHistoryTSVColumnsAndTypes.
Definition noteStatusHistoryTSVTypes : list dtype :=
  map snd noteStatusHistoryTSVColumnsAndTypes.
Definition noteStatusHistoryTSVTypeMapping : gmap string dtype :=
  Py.dict_of noteStatusHistoryTSVColumnsAndTypes.

(** *** Rescoring rules *)
Inductive RescoringRuleID :=
| ALL_NOTES
| NOTES_WITH_NEW_RATINGS
| NOTES_FLIPPED_PREVIOUS_RUN
| NEW_NOTES_NOT_RESCORED_RECENTLY_ENOUGH
| RECENTLY_FLIPPED_NOTES_NOT_RESCORED_RECENTLY_ENOUGH.

#[global] Instance RescoringRuleID_eq_dec : EqDecision RescoringRuleID.
Proof. solve_decision. Defined.

(** [r.value] *)
Definition value (r : RescoringRuleID) : Z :=
  match r with
  | ALL_NOTES => 1
  | NOTES_WITH_NEW_RATINGS => 2
  | NOTES_FLIPPED_PREVIOUS_RUN => 3
  | NEW_NOTES_NOT_RESCORED_RECENTLY_ENOUGH => 4
  | RECENTLY_FLIPPED_NOTES_NOT_RESCORED_RECENTLY_ENOUGH => 5
  end.

(** [r.name] *)
Definition name (r : RescoringRuleID) : string :=
  match r with
  | ALL_NOTES => "ALL_NOTES"
  | NOTES_WITH_NEW_RATINGS => "NOTES_WITH_NEW_RATINGS"
  | NOTES_FLIPPED_PREVIOUS_RUN => "NOTES_FLIPPED_PREVIOUS_RUN"
  | NEW_NOTES_NOT_RESCORED_RECENTLY_ENOUGH => "NEW_NOTES_NOT_RESCORED_RECENTLY_ENOUGH"
  | RECENTLY_FLIPPED_NOTES_NOT_RESCORED_RECENTLY_ENOUGH =>
      "RECENTLY_FLIPPED_NOTES_NOT_RESCORED_RECENTLY_ENOUGH"
  end.

(** [list(RescoringRuleID)]: the members in the order of their definition. *)
Definition members : list RescoringRuleID :=
  [ ALL_NOTES; NOTES_WITH_NEW_RATINGS; NOTES_FLIPPED_PREVIOUS_RUN;
    NEW_NOTES_NOT_RESCORED_RECENTLY_ENOUGH;
    RECENTLY_FLIPPED_NOTES_NOT_RESCORED_RECENTLY_ENOUGH ].

(** [RescoringRuleID(v)]: the member of that value; [None] stands for the
    [ValueError] Python raises when there is none. *)
Definition RescoringRuleID_of_value (v : Z) : option RescoringRuleID :=
  find (λ r, bool_decide (value r = v)) members.

Record NoteSubset := {
  noteSet : option (gset Z);
  maxCrhChurnRate : Q;
  description : RescoringRuleID
}.

(** *** Arguments handed between the scoring phases *)
Definition SharedMemoryDataframeInfo : Py.ClassDecl :=
  Py.Class "SharedMemoryDataframeInfo" None
    [ ("sharedMemoryName", Py.Tstr);
      ("dataSize", Py.Tint) ] [].

Definition ScoringArgsSharedMemory : Py.ClassDecl :=
  Py.Class "ScoringArgsSharedMemory" None
    [ ("noteTopics", Py.TClass "SharedMemoryDataframeInfo");
      ("ratings", Py.TClass "SharedMemoryDataframeInfo");
      ("noteStatusHistory", Py.TClass "SharedMemoryDataframeInfo");
      ("userEnrollment", Py.TClass "SharedMemoryDataframeInfo") ] [].

Definition PrescoringArgsSharedMemory : Py.ClassDecl :=
  Py.Class "PrescoringArgsSharedMemory" (Some ScoringArgsSharedMemory) [] [].

Definition FinalScoringArgsSharedMemory : Py.ClassDecl :=
  Py.Class "FinalScoringArgsSharedMemory" (Some ScoringArgsSharedMemory)
    [ ("prescoringNoteModelOutput", Py.TClass "SharedMemoryDataframeInfo");
      ("prescoringRaterModelOutput", Py.TClass "SharedMemoryDataframeInfo") ] [].

Definition ScoringArgs_remove_large_args_for_multiprocessing
    (self : gmap string Py.PyVal) : gmap string Py.PyVal :=
  let self := Py.setattr self "noteTopics" Py.PyNone in
  let self := Py.setattr self "ratings" Py.PyNone in
  let self := Py.setattr self "noteStatusHistory" Py.PyNone in
  let self := Py.setattr self "userEnrollment" Py.PyNone in
  self.

Definition ScoringArgs : Py.ClassDecl :=
  Py.Class "ScoringArgs" None
    [ ("noteTopics", Py.TDataFrame);
      ("ratings", Py.TDataFrame);
      ("noteStatusHistory", Py.TDataFrame);
      ("userEnrollment", Py.TDataFrame) ]
    [ ("remove_large_args_for_multiprocessing",
       ScoringArgs_remove_large_args_for_multiprocessing) ].

Definition PrescoringArgs : Py.ClassDecl :=
  Py.Class "PrescoringArgs" (Some ScoringArgs) [] [].

Definition FinalScoringArgs_remove_large_args_for_multiprocessing
    (self : gmap string Py.PyVal) : gmap string Py.PyVal :=
  let self := Py.setattr self "ratings" Py.PyNone in
  let self := Py.setattr self "noteStatusHistory" Py.PyNone in
  let self := Py.setattr self "userEnrollment" Py.PyNone in
  let self := Py.setattr self "prescoringNoteModelOutput" Py.PyNone in
  let self := Py.setattr self "prescoringRaterModelOutput" Py.PyNone in
  self.

Definition FinalScoringArgs : Py.ClassDecl :=
  Py.Class "FinalScoringArgs" (Some ScoringArgs)
    [ ("prescoringNoteModelOutput", Py.TDataFrame);
      ("prescoringRaterModelOutput", Py.TDataFrame);
      ("prescoringMetaOutput", Py.TClass "PrescoringMetaOutput") ]
    [ ("remove_large_args_for_multiprocessing",
       FinalScoringArgs_remove_large_args_for_multiprocessing) ].

Definition NoteSubset_class : Py.ClassDecl :=
  Py.Class "NoteSubset" None
    [ ("noteSet", Py.TOptional Py.Tset);
      ("maxCrhChurnRate", Py.Tfloat);
      ("description", Py.TClass "RescoringRuleID") ] [].

(** *** The remaining column names and schemas *)

(** The column types of the other schemas: those of the status history, and
    [str], [pd.Int8Dtype()], [pd.Int64Dtype()], [pd.BooleanDtype()] and
    [np.int8]. [np.float64] is the same type as [np.double]. *)
Inductive coltype :=
| Np (d : dtype)
| py_str
| pd_Int8Dtype
| pd_Int64Dtype
| pd_BooleanDtype
| np_int8.

#[global] Instance coltype_eq_dec : EqDecision coltype.
Proof. solve_decision. Defined.

Definition participantIdKey := "participantId".

Definition helpfulKey := "helpful".

Definition notHelpfulKey := "notHelpful".

Definition helpfulnessLevelKey := "helpfulnessLevel".

Definition summaryKey := "summary".

Definition noteTopicKey := "noteTopic".

Definition authorTopNotHelpfulTagValues := "authorTopNotHelpfulTagValues".

Definition modelingPopulationKey := "modelingPopulation".

Definition modelingGroupKey := "modelingGroup".

Definition numberOfTimesEarnedOutKey := "numberOfTimesEarnedOut".

Definition firstTagKey := "firstTag".

Definition secondTagKey := "secondTag".

Definition activeFilterTagsKey := "activeFilterTags".

Definition successfulRatingHelpfulCount := "successfulRatingHelpfulCount".

Definition successfulRatingNotHelpfulCount := "successfulRatingNotHelpfulCount".

Definition successfulRatingTotal := "successfulRatingTotal".

Definition unsuccessfulRatingHelpfulCount := "unsuccessfulRatingHelpfulCount".

Definition unsuccessfulRatingNotHelpfulCount := "unsuccessfulRatingNotHelpfulCount".

Definition unsuccessfulRatingTotal := "unsuccessfulRatingTotal".

Definition ratingsAwaitingMoreRatings := "ratingsAwaitingMoreRatings".

Definition ratedAfterDecision := "ratedAfterDecision".

Definition notesCurrentlyRatedHelpful := "notesCurrentlyRatedHelpful".

Definition notesCurrentlyRatedNotHelpful := "notesCurrentlyRatedNotHelpful".

Definition notesAwaitingMoreRatings := "notesAwaitingMoreRatings".

Definition finalRatingStatusKey := "finalRatingStatus".

Definition unlockedRatingStatusKey := "unlockedRatingStatus".

Definition metaScorerActiveRulesKey := "metaScorerActiveRules".

Definition decidedByKey := "decidedBy".

Definition rescoringActiveRulesKey := "rescoringActiveRules".

Definition noteFinalStatusChange := "finalStatusChange".

Definition noteNewRatings := "newRatings".

Definition noteDecidedByChange := "decidedByChange".

Definition noteAllAddedRules := "allAddedRules".

Definition noteAllRemovedRules := "allRemovedRules".

Definition noteDecidedByInterceptChange := "decidedByInterceptChange".

Definition internalNoteInterceptKey := "internalNoteIntercept".

Definition internalRaterInterceptKey := "internalRaterIntercept".

Definition internalNoteFactorKeyBase := "internalNoteFactor".

Definition internalRaterFactorKeyBase := "internalRaterFactor".

Definition internalRatingStatusKey := "internalRatingStatus".

Definition internalActiveRulesKey := "internalActiveRules".

Definition internalRaterReputationKey := "internalRaterReputation".

Definition scorerNameKey := "scorerName".

(** [def note_factor_key(i)] and [def rater_factor_key(i)], for an [int]
    argument. *)
Definition note_factor_key (i : Z) : string :=
  internalNoteFactorKeyBase ++ Py.str i.

Definition rater_factor_key (i : Z) : string :=
  internalRaterFactorKeyBase ++ Py.str i.

Definition internalNoteFactor1Key : string := note_factor_key 1.

Definition internalRaterFactor1Key : string := rater_factor_key 1.

Definition coreNoteInterceptKey := "coreNoteIntercept".

Definition coreNoteFactor1Key := "coreNoteFactor1".

Definition coreRaterInterceptKey := "coreRaterIntercept".

Definition coreRaterFactor1Key := "coreRaterFactor1".

Definition coreRatingStatusKey := "coreRatingStatus".

Definition coreActiveRulesKey := "coreActiveRules".

Definition coreNoteInterceptMaxKey := "coreNoteInterceptMax".

Definition coreNoteInterceptMinKey := "coreNoteInterceptMin".

Definition coreNumFinalRoundRatingsKey := "coreNumFinalRoundRatings".

Definition expansionNoteInterceptKey := "expansionNoteIntercept".

Definition expansionNoteFactor1Key := "expansionNoteFactor1".

Definition expansionRatingStatusKey := "expansionRatingStatus".

Definition expansionNoteInterceptMaxKey := "expansionNoteInterceptMax".

Definition expansionNoteInterceptMinKey := "expansionNoteInterceptMin".

Definition expansionInternalActiveRulesKey := "expansionActiveRules".

Definition expansionNumFinalRoundRatingsKey := "expansionNumFinalRoundRatings".

Definition expansionRaterFactor1Key := "expansionRaterFactor1".

Definition expansionRaterInterceptKey := "expansionRaterIntercept".

Definition expansionPlusNoteInterceptKey := "expansionPlusNoteIntercept".

Definition expansionPlusNoteFactor1Key := "expansionPlusNoteFactor1".

Definition expansionPlusRatingStatusKey := "expansionPlusRatingStatus".

Definition expansionPlusInternalActiveRulesKey := "expansionPlusActiveRules".

Definition expansionPlusNumFinalRoundRatingsKey := "expansionPlusNumFinalRoundRatings".

Definition expansionPlusRaterFactor1Key := "expansionPlusRaterFactor1".

Definition expansionPlusRaterInterceptKey := "expansionPlusRaterIntercept".

Definition coverageNoteInterceptKey := "coverageNoteIntercept".

Definition coverageNoteFactor1Key := "coverageNoteFactor1".

Definition coverageRatingStatusKey := "coverageRatingStatus".

Definition coverageNoteInterceptMaxKey := "coverageNoteInterceptMax".

Definition coverageNoteInterceptMinKey := "coverageNoteInterceptMin".

Definition raterHelpfulnessReputationKey := "raterHelpfulnessReputation".

Definition groupNoteInterceptKey := "groupNoteIntercept".

Definition groupNoteFactor1Key := "groupNoteFactor1".

Definition groupRatingStatusKey := "groupRatingStatus".

Definition groupNoteInterceptMaxKey := "groupNoteInterceptMax".

Definition groupNoteInterceptMinKey := "groupNoteInterceptMin".

Definition groupRaterInterceptKey := "groupRaterIntercept".

Definition groupRaterFactor1Key := "groupRaterFactor1".

Definition groupInternalActiveRulesKey := "groupActiveRules".

Definition groupNumFinalRoundRatingsKey := "groupNumFinalRoundRatings".

Definition topicNoteInterceptKey := "topicNoteIntercept".

Definition topicNoteFactor1Key := "topicNoteFactor1".

Definition topicRatingStatusKey := "topicRatingStatus".

Definition topicNoteConfidentKey := "topicNoteConfident".

Definition topicInternalActiveRulesKey := "topicActiveRules".

Definition topicNumFinalRoundRatingsKey := "topicNumFinalRoundRatings".

Definition tweetIdKey := "tweetId".

Definition classificationKey := "classification".

Definition raterParticipantIdKey := "raterParticipantId".

Definition numRatingsKey := "numRatings".

Definition numRatingsLast28DaysKey := "numRatingsLast28".

Definition crhCrnhRatioDifferenceKey := "crhCrnhRatioDifference".

Definition meanNoteScoreKey := "meanNoteScore".

Definition raterAgreeRatioKey := "raterAgreeRatio".

Definition aboveHelpfulnessThresholdKey := "aboveHelpfulnessThreshold".

Definition currentlyRatedHelpfulBoolKey := "crhBool".

Definition currentlyRatedNotHelpfulBoolKey := "crnhBool".

Definition awaitingMoreRatingsBoolKey := "awaitingBool".

Definition helpfulTagBoolsAndTypesTSVOrder : list (string * coltype) :=
  map (λ tag : string, (tag, pd_Int8Dtype)) helpfulTagsTSVOrder.

Definition helpfulTagCountsAndTypesTSVOrder : list (string * coltype) :=
  map (λ tag : string, (tag, pd_Int64Dtype)) helpfulTagsTSVOrder.

Definition notHelpfulTagsAndTypesTSVOrder : list (string * coltype) :=
  map (λ tag : string, (tag, pd_Int8Dtype)) notHelpfulTagsTSVOrder.

Definition notHelpfulTagCountsAndTypesTSVOrder : list (string * coltype) :=
  map (λ tag : string, (tag, pd_Int64Dtype)) notHelpfulTagsTSVOrder.

Definition adjustedSuffix := "Adjusted".

Definition notHelpfulTagsAdjustedColumns : list string :=
  map (λ column : string, column ++ adjustedSuffix) notHelpfulTagsTSVOrder.

Definition notHelpfulTagsAdjustedTSVColumnsAndTypes : list (string * coltype) :=
  map (λ tag : string, (tag, Np np_double)) notHelpfulTagsAdjustedColumns.

Definition ratioSuffix := "Ratio".

Definition notHelpfulTagsAdjustedRatioColumns : list string :=
  map (λ column : string, column ++ ratioSuffix) notHelpfulTagsAdjustedColumns.

Definition notHelpfulTagsAdjustedRatioTSVColumnsAndTypes : list (string * coltype) :=
  map (λ tag : string, (tag, Np np_double)) notHelpfulTagsAdjustedRatioColumns.

Definition ratingWeightKey := "ratingWeight".

Definition incorrectTagRatingsMadeByRaterKey := "incorrectTagRatingsMadeByRater".

Definition totalRatingsMadeByRaterKey := "totalRatingsMadeByRater".

Definition noteTfIdfIncorrectScoreIntervalKey := "tf_idf_incorrect_interval".

Definition numVotersIntervalKey := "num_voters_interval".

Definition sumOfIncorrectTagRateByRaterIntervalKey := "p_incorrect_user_interval".

Definition notHelpfulIncorrectIntervalKey := "notHelpfulIncorrect_interval".

Definition lowDiligenceRaterFactor1Key := "lowDiligenceRaterFactor1".

Definition lowDiligenceRaterInterceptKey := "lowDiligenceRaterIntercept".

Definition lowDiligenceRaterReputationKey := "lowDiligenceRaterReputation".

Definition lowDiligenceNoteFactor1Key := "lowDiligenceNoteFactor1".

Definition lowDiligenceNoteInterceptKey := "lowDiligenceNoteIntercept".

Definition lowDiligenceLegacyNoteInterceptKey := "lowDiligenceIntercept".

Definition lowDiligenceNoteInterceptRound2Key := "lowDiligenceNoteInterceptRound2".

Definition lowDiligenceRaterInterceptRound2Key := "lowDiligenceRaterInterceptRound2".

Definition incorrectFilterColumnsAndTypes : list (string * coltype) :=
    [ (notHelpfulIncorrectIntervalKey, Np np_double);
      (sumOfIncorrectTagRateByRaterIntervalKey, Np np_double);
      (numVotersIntervalKey, Np np_double);
      (noteTfIdfIncorrectScoreIntervalKey, Np np_double);
      (lowDiligenceLegacyNoteInterceptKey, Np np_double) ].

Definition incorrectFilterColumns : list string :=
  map fst incorrectFilterColumnsAndTypes.

Definition misleadingTags : list string :=
    [ "misleadingOther";
      "misleadingFactualError";
      "misleadingManipulatedMedia";
      "misleadingOutdatedInformation";
      "misleadingMissingImportantContext";
      "misleadingUnverifiedClaimAsFact";
      "misleadingSatire" ].

Definition misleadingTagsAndTypes : list (string * coltype) :=
  map (λ tag : string, (tag, pd_Int8Dtype)) misleadingTags.

Definition notMisleadingTags : list string :=
    [ "notMisleadingOther";
      "notMisleadingFactuallyCorrect";
      "notMisleadingOutdatedButNotWhenWritten";
      "notMisleadingClearlySatire";
      "notMisleadingPersonalOpinion" ].

Definition notMisleadingTagsAndTypes : list (string * coltype) :=
  map (λ tag : string, (tag, pd_Int8Dtype)) notMisleadingTags.

Definition noteTSVColumnsAndTypes : list (string * coltype) :=
    ([ (noteIdKey, Np np_int64);
      (noteAuthorParticipantIdKey, Np py_object);
      (createdAtMillisKey, Np np_int64);
      (tweetIdKey, Np np_int64);
      (classificationKey, Np py_object);
      ("believable", Np category);
      ("harmful", Np category);
      ("validationDifficulty", Np category) ]
    ++ misleadingTagsAndTypes
    ++ notMisleadingTagsAndTypes
    ++ [ ("trustworthySources", pd_Int8Dtype);
      (summaryKey, Np py_object);
      ("isMediaNote", pd_Int8Dtype) ])%list.

Definition noteTSVColumns : list string :=
  map fst noteTSVColumnsAndTypes.

Definition noteTSVTypes : list coltype :=
  map snd noteTSVColumnsAndTypes.

Definition noteTSVTypeMapping : gmap string coltype :=
  Py.dict_of noteTSVColumnsAndTypes.

Definition versionKey := "version".

Definition agreeKey := "agree".

Definition disagreeKey := "disagree".

Definition ratedOnTweetIdKey := "ratedOnTweetId".

Definition ratingTSVColumnsAndTypes : list (string * coltype) :=
    ([ (noteIdKey, Np np_int64);
      (raterParticipantIdKey, Np py_object);
      (createdAtMillisKey, Np np_int64);
      (versionKey, pd_Int8Dtype);
      (agreeKey, pd_Int8Dtype);
      (disagreeKey, pd_Int8Dtype);
      (helpfulKey, pd_Int8Dtype);
      (notHelpfulKey, pd_Int8Dtype);
      (helpfulnessLevelKey, Np category) ]
    ++ helpfulTagBoolsAndTypesTSVOrder
    ++ notHelpfulTagsAndTypesTSVOrder
    ++ [ (ratedOnTweetIdKey, Np np_int64) ])%list.

Definition ratingTSVColumns : list string :=
  map fst ratingTSVColumnsAndTypes.

Definition ratingTSVTypes : list coltype :=
  map snd ratingTSVColumnsAndTypes.

Definition ratingTSVTypeMapping : gmap string coltype :=
  Py.dict_of ratingTSVColumnsAndTypes.

Definition enrollmentState := "enrollmentState".

Definition successfulRatingNeededToEarnIn := "successfulRatingNeededToEarnIn".

Definition timestampOfLastStateChange := "timestampOfLastStateChange".

Definition timestampOfLastEarnOut := "timestampOfLastEarnOut".

Definition earnedIn := "earnedIn".

Definition atRisk := "atRisk".

Definition earnedOutNoAcknowledge := "earnedOutNoAcknowledge".

Definition earnedOutAcknowledged := "earnedOutAcknowledged".

Definition newUser := "newUser".

Definition removed := "removed".

Definition enrollmentStateToThrift : gmap string Z :=
  Py.dict_of
    [ (earnedIn, 0);
      (atRisk, 1);
      (earnedOutNoAcknowledge, 2);
      (earnedOutAcknowledged, 3);
      (newUser, 4);
      (removed, 5) ].

Definition isEmergingWriterKey := "isEmergingWriter".

Definition aggregateRatingReceivedTotal := "aggregateRatingReceivedTotal".

Definition userEnrollmentTSVColumnsAndTypes : list (string * coltype) :=
    [ (participantIdKey, py_str);
      (enrollmentState, py_str);
      (successfulRatingNeededToEarnIn, Np np_int64);
      (timestampOfLastStateChange, Np np_int64);
      (timestampOfLastEarnOut, Np np_double);
      (modelingPopulationKey, py_str);
      (modelingGroupKey, Np np_double);
      (numberOfTimesEarnedOutKey, Np np_int64) ].

Definition userEnrollmentTSVColumns : list string :=
  map fst userEnrollmentTSVColumnsAndTypes.

Definition userEnrollmentTSVTypes : list coltype :=
  map snd userEnrollmentTSVColumnsAndTypes.

Definition userEnrollmentTSVTypeMapping : gmap string coltype :=
  Py.dict_of userEnrollmentTSVColumnsAndTypes.

Definition noteInterceptMaxKey := "internalNoteIntercept_max".

Definition noteInterceptMinKey := "internalNoteIntercept_min".

Definition noteParameterUncertaintyTSVMainColumnsAndTypes : list (string * coltype) :=
    [ (noteInterceptMaxKey, Np np_double);
      (noteInterceptMinKey, Np np_double) ].

Definition noteParameterUncertaintyTSVAuxColumnsAndTypes : list (string * coltype) :=
    [ ("internalNoteFactor1_max", Np np_double);
      ("internalNoteFactor1_median", Np np_double);
      ("internalNoteFactor1_min", Np np_double);
      ("internalNoteFactor1_refit_orig", Np np_double);
      ("internalNoteIntercept_median", Np np_double);
      ("internalNoteIntercept_refit_orig", Np np_double);
      ("ratingCount_all", Np np_int64);
      ("ratingCount_neg_fac", Np np_int64);
      ("ratingCount_pos_fac", Np np_int64) ].

Definition noteParameterUncertaintyTSVColumnsAndTypes : list (string * coltype) :=
    (noteParameterUncertaintyTSVAuxColumnsAndTypes
    ++ noteParameterUncertaintyTSVMainColumnsAndTypes)%list.

Definition noteParameterUncertaintyTSVColumns : list string :=
  map fst noteParameterUncertaintyTSVColumnsAndTypes.

Definition noteParameterUncertaintyTSVAuxColumns : list string :=
  map fst noteParameterUncertaintyTSVAuxColumnsAndTypes.

Definition noteParameterUncertaintyTSVMainColumns : list string :=
  map fst noteParameterUncertaintyTSVMainColumnsAndTypes.

Definition noteParameterUncertaintyTSVTypes : list coltype :=
  map snd noteParameterUncertaintyTSVColumnsAndTypes.

Definition noteParameterUncertaintyTSVTypeMapping : gmap string coltype :=
  Py.dict_of noteParameterUncertaintyTSVColumnsAndTypes.

Definition auxiliaryScoredNotesTSVColumnsAndTypes : list (string * coltype) :=
    ([ (noteIdKey, Np np_int64);
      (ratingWeightKey, Np np_double);
      (createdAtMillisKey, Np np_int64);
      (noteAuthorParticipantIdKey, Np py_object);
      (awaitingMoreRatingsBoolKey, np_int8);
      (numRatingsLast28DaysKey, Np np_int64);
      (currentLabelKey, py_str);
      (currentlyRatedHelpfulBoolKey, np_int8);
      (currentlyRatedNotHelpfulBoolKey, np_int8);
      (unlockedRatingStatusKey, py_str) ]
    ++ helpfulTagCountsAndTypesTSVOrder
    ++ notHelpfulTagCountsAndTypesTSVOrder
    ++ notHelpfulTagsAdjustedTSVColumnsAndTypes
    ++ notHelpfulTagsAdjustedRatioTSVColumnsAndTypes
    ++ incorrectFilterColumnsAndTypes)%list.

Definition auxiliaryScoredNotesTSVColumns : list string :=
  map fst auxiliaryScoredNotesTSVColumnsAndTypes.

Definition auxiliaryScoredNotesTSVTypeMapping : gmap string coltype :=
  Py.dict_of auxiliaryScoredNotesTSVColumnsAndTypes.

Definition deprecatedNoteModelOutputColumns : gset string :=
  {[ coverageNoteInterceptMinKey; coverageNoteInterceptMaxKey ]}.

Definition prescoringNoteModelOutputTSVColumnsAndTypes : list (string * coltype) :=
    [ (noteIdKey, Np np_int64);
      (internalNoteInterceptKey, Np np_double);
      (internalNoteFactor1Key, Np np_double);
      (scorerNameKey, py_str);
      (lowDiligenceNoteInterceptKey, Np np_double);
      (lowDiligenceNoteFactor1Key, Np np_double);
      (lowDiligenceNoteInterceptRound2Key, Np np_double) ].

Definition prescoringNoteModelOutputTSVColumns : list string :=
  map fst prescoringNoteModelOutputTSVColumnsAndTypes.

Definition prescoringNoteModelOutputTSVTypeMapping : gmap string coltype :=
  Py.dict_of prescoringNoteModelOutputTSVColumnsAndTypes.

Definition noteModelOutputTSVColumnsAndTypes : list (string * coltype) :=
    [ (noteIdKey, Np np_int64);
      (coreNoteInterceptKey, Np np_double);
      (coreNoteFactor1Key, Np np_double);
      (finalRatingStatusKey, py_str);
      (firstTagKey, py_str);
      (secondTagKey, py_str);
      (coreActiveRulesKey, py_str);
      (activeFilterTagsKey, py_str);
      (classificationKey, py_str);
      (createdAtMillisKey, Np np_int64);
      (coreRatingStatusKey, py_str);
      (metaScorerActiveRulesKey, py_str);
      (decidedByKey, py_str);
      (expansionNoteInterceptKey, Np np_double);
      (expansionNoteFactor1Key, Np np_double);
      (expansionRatingStatusKey, py_str);
      (coverageNoteInterceptKey, Np np_double);
      (coverageNoteFactor1Key, Np np_double);
      (coverageRatingStatusKey, py_str);
      (coreNoteInterceptMinKey, Np np_double);
      (coreNoteInterceptMaxKey, Np np_double);
      (expansionNoteInterceptMinKey, Np np_double);
      (expansionNoteInterceptMaxKey, Np np_double);
      (coverageNoteInterceptMinKey, Np np_double);
      (coverageNoteInterceptMaxKey, Np np_double);
      (groupNoteInterceptKey, Np np_double);
      (groupNoteFactor1Key, Np np_double);
      (groupRatingStatusKey, py_str);
      (groupNoteInterceptMaxKey, Np np_double);
      (groupNoteInterceptMinKey, Np np_double);
      (modelingGroupKey, Np np_double);
      (numRatingsKey, Np np_int64);
      (timestampMillisOfNoteCurrentLabelKey, Np np_double);
      (expansionPlusNoteInterceptKey, Np np_double);
      (expansionPlusNoteFactor1Key, Np np_double);
      (expansionPlusRatingStatusKey, py_str);
      (topicNoteInterceptKey, Np np_double);
      (topicNoteFactor1Key, Np np_double);
      (topicRatingStatusKey, py_str);
      (noteTopicKey, py_str);
      (topicNoteConfidentKey, pd_BooleanDtype);
      (expansionInternalActiveRulesKey, py_str);
      (expansionPlusInternalActiveRulesKey, py_str);
      (groupInternalActiveRulesKey, py_str);
      (topicInternalActiveRulesKey, py_str);
      (coreNumFinalRoundRatingsKey, Np np_double);
      (expansionNumFinalRoundRatingsKey, Np np_double);
      (expansionPlusNumFinalRoundRatingsKey, Np np_double);
      (groupNumFinalRoundRatingsKey, Np np_double);
      (topicNumFinalRoundRatingsKey, Np np_double);
      (rescoringActiveRulesKey, py_str) ].

Definition noteModelOutputTSVColumns : list string :=
  map fst noteModelOutputTSVColumnsAndTypes.

Definition noteModelOutputTSVTypeMapping : gmap string coltype :=
  Py.dict_of noteModelOutputTSVColumnsAndTypes.

Definition deprecatedNoteModelOutputTSVColumnsAndTypes : list (string * coltype) :=
  filter (λ ct : string * coltype, ct.1 ∈ deprecatedNoteModelOutputColumns)
         noteModelOutputTSVColumnsAndTypes.

Definition postSelectionValueKey := "postSelectionValue".

Definition prescoringRaterModelOutputTSVColumnsAndTypes : list (string * coltype) :=
    [ (raterParticipantIdKey, Np py_object);
      (internalRaterInterceptKey, Np np_double);
      (internalRaterFactor1Key, Np np_double);
      (crhCrnhRatioDifferenceKey, Np np_double);
      (meanNoteScoreKey, Np np_double);
      (raterAgreeRatioKey, Np np_double);
      (aboveHelpfulnessThresholdKey, pd_BooleanDtype);
      (scorerNameKey, py_str);
      (internalRaterReputationKey, Np np_double);
      (lowDiligenceRaterInterceptKey, Np np_double);
      (lowDiligenceRaterFactor1Key, Np np_double);
      (lowDiligenceRaterReputationKey, Np np_double);
      (lowDiligenceRaterInterceptRound2Key, Np np_double);
      (incorrectTagRatingsMadeByRaterKey, pd_Int64Dtype);
      (totalRatingsMadeByRaterKey, pd_Int64Dtype);
      (postSelectionValueKey, pd_Int64Dtype) ].

Definition prescoringRaterModelOutputTSVColumns : list string :=
  map fst prescoringRaterModelOutputTSVColumnsAndTypes.

Definition prescoringRaterModelOutputTSVTypeMapping : gmap string coltype :=
  Py.dict_of prescoringRaterModelOutputTSVColumnsAndTypes.

Definition raterModelOutputTSVColumnsAndTypes : list (string * coltype) :=
    [ (raterParticipantIdKey, Np np_int64);
      (coreRaterInterceptKey, Np np_double);
      (coreRaterFactor1Key, Np np_double);
      (crhCrnhRatioDifferenceKey, Np np_double);
      (meanNoteScoreKey, Np np_double);
      (raterAgreeRatioKey, Np np_double);
      (successfulRatingHelpfulCount, pd_Int64Dtype);
      (successfulRatingNotHelpfulCount, pd_Int64Dtype);
      (successfulRatingTotal, pd_Int64Dtype);
      (unsuccessfulRatingHelpfulCount, pd_Int64Dtype);
      (unsuccessfulRatingNotHelpfulCount, pd_Int64Dtype);
      (unsuccessfulRatingTotal, pd_Int64Dtype);
      (ratingsAwaitingMoreRatings, pd_Int64Dtype);
      (ratedAfterDecision, pd_Int64Dtype);
      (notesCurrentlyRatedHelpful, pd_Int64Dtype);
      (notesCurrentlyRatedNotHelpful, pd_Int64Dtype);
      (notesAwaitingMoreRatings, pd_Int64Dtype);
      (enrollmentState, pd_Int64Dtype);
      (successfulRatingNeededToEarnIn, pd_Int64Dtype);
      (authorTopNotHelpfulTagValues, py_str);
      (timestampOfLastStateChange, Np np_double);
      (aboveHelpfulnessThresholdKey, Np np_double);
      (isEmergingWriterKey, pd_BooleanDtype);
      (aggregateRatingReceivedTotal, pd_Int64Dtype);
      (timestampOfLastEarnOut, Np np_double);
      (groupRaterInterceptKey, Np np_double);
      (groupRaterFactor1Key, Np np_double);
      (modelingGroupKey, Np np_double);
      (raterHelpfulnessReputationKey, Np np_double);
      (numberOfTimesEarnedOutKey, Np np_double);
      (expansionRaterInterceptKey, Np np_double);
      (expansionRaterFactor1Key, Np np_double);
      (expansionPlusRaterInterceptKey, Np np_double);
      (expansionPlusRaterFactor1Key, Np np_double) ].

Definition raterModelOutputTSVColumns : list string :=
  map fst raterModelOutputTSVColumnsAndTypes.

Definition raterModelOutputTSVTypeMapping : gmap string coltype :=
  Py.dict_of raterModelOutputTSVColumnsAndTypes.

Definition noteStatusChangesPrev := "_prev".

Definition noteStatusChangesDerivedColumnsAndTypes : list (string * coltype) :=
    [ (noteIdKey, Np np_int64);
      (noteFinalStatusChange, py_str);
      (noteNewRatings, Np np_int64);
      (noteDecidedByChange, py_str);
      (noteAllAddedRules, py_str);
      (noteAllRemovedRules, py_str);
      (noteDecidedByInterceptChange, py_str) ].

Definition noteStatusChangesRemovedCols : list string :=
  filter (λ col : string, Py.contains "NoteInterceptMin" col = true
                          ∨ Py.contains "NoteInterceptMax" col = true)
         noteModelOutputTSVColumns.

Definition noteStatusChangesModelOutputColumnsAndTypes : list (string * coltype) :=
  filter (λ ct : string * coltype,
            ct.1 ∉ (noteStatusChangesRemovedCols ++ [noteIdKey])%list)
         noteModelOutputTSVColumnsAndTypes.

Definition noteStatusChangesModelOutputWithPreviousColumnsAndTypes :
  list (string * coltype) :=
  (noteStatusChangesModelOutputColumnsAndTypes
   ++ map (λ ct : string * coltype, ((ct.1 ++ noteStatusChangesPrev)%string, ct.2))
          noteStatusChangesModelOutputColumnsAndTypes)%list.

Definition noteStatusChangeTSVColumnsAndTypes : list (string * coltype) :=
  (noteStatusChangesDerivedColumnsAndTypes
   ++ Py.sorted_by_first noteStatusChangesModelOutputWithPreviousColumnsAndTypes)%list.

Definition noteStatusChangesTSVColumns : list string :=
  map fst noteStatusChangeTSVColumnsAndTypes.

Definition noteStatusChangesTSVTypeMapping : gmap string coltype :=
  Py.dict_of noteStatusChangeTSVColumnsAndTypes.

Definition datasetKeyKey := "datasetKey".

Definition partitionToReadKey := "partitionToRead".

Definition fileNameToReadKey := "fileNameToRead".

Definition inputPathsTSVColumnsAndTypes : list (string * coltype) :=
    [ (datasetKeyKey, py_str);
      (partitionToReadKey, py_str);
      (fileNameToReadKey, py_str) ].

Definition inputPathsTSVColumns : list string :=
  map fst inputPathsTSVColumnsAndTypes.

Definition inputPathsTSVTypeMapping : gmap string coltype :=
  Py.dict_of inputPathsTSVColumnsAndTypes.

End constants.

Import constants.

(** The name of the method the argument classes define. *)
Definition remove_large_args := "remove_large_args_for_multiprocessing".

(** ** Cells of a [np.double] column *)

Module Double.

(** [np.nan], the value pandas stores in a [np.double] column for a cell
    that is missing. *)
Definition nan : spec_float := S754_nan.

(** The double nearest to an integer (binary64: 53 bits, emax 1024). *)
Definition of_int (z : Z) : spec_float := binary_normalize 53 1024 z 0 false.

(** [pd.isna] on a cell of a [np.double] column. *)
Definition isna (x : spec_float) : bool :=
  match x with S754_nan => true | _ => false end.

(** The values a cell of a column of the given type can hold. *)
Definition carrier (d : dtype) : Type :=
  match d with
  | np_int64 => Z
  | np_double => spec_float
  | py_object | category => option string
  end.

(** What a column of the given type stores for a missing cell, if it can
    store one: an [np.int64] column cannot. *)
Definition missing (d : dtype) : option (carrier d) :=
  match d with
  | np_int64 => None
  | np_double => Some nan
  | py_object => Some None
  | category => Some None
  end.

End Double.

(** ** Explanation tag selector *)

Module ExplanationTags.

Inductive Vocabulary := Helpful | NotHelpful.

Definition tagsAndTieBreakOrder (v : Vocabulary) : list (Z * string) :=
  match v with
  | Helpful => helpfulTagsAndTieBreakOrder
  | NotHelpful => notHelpfulTagsAndTieBreakOrder
  end.

(** Vote count of a tag in the row of a note; a tag the row has no entry for
    has no votes. *)
Definition tagCount (row : gmap string Z) (tag : string) : Z :=
  default 0 (row !! tag).

(** A tag of the vocabulary with its count: (count, priority, tag). *)
Definition Counted : Type := Z * Z * string.
Definition count_of (c : Counted) : Z := c.1.1.
Definition priority_of (c : Counted) : Z := c.1.2.
Definition tag_of (c : Counted) : string := c.2.

Definition counted (row : gmap string Z) (vocab : list (Z * string)) : list Counted :=
  map (λ pt : Z * string, (tagCount row pt.2, pt.1, pt.2)) vocab.

(** [other] has priority 0 in the vocabulary and every other tag a priority
    above 0. *)
Definition other_is_least (other : string) (vocab : list (Z * string)) : Prop :=
  (0, other) ∈ vocab ∧ Forall (λ pt : Z * string, pt.2 ≠ other → 0 < pt.1) vocab.

(** Modelled from the spec: the vote-count threshold of the Explanation Tag
    Selector (the selecting function is not part of constants.py, which
    holds its thresholds and vocabularies): a tag needs at least
    [minRatingsToGetTag] votes. *)
Definition reaches_threshold (c : Counted) : bool :=
  bool_decide (minRatingsToGetTag ≤ count_of c).

(** Modelled from the spec: the ranking of the Explanation Tag Selector,
    count descending, then tie-break priority descending. *)
Definition ranks_before (a b : Counted) : Prop :=
  count_of b < count_of a ∨ (count_of b = count_of a ∧ priority_of b ≤ priority_of a).

#[global] Instance ranks_before_dec a b : Decision (ranks_before a b).
Proof. unfold ranks_before. apply _. Defined.

Definition qualifying (row : gmap string Z) (vocab : list (Z * string)) : list Counted :=
  filter (λ c, reaches_threshold c = true) (counted row vocab).

Definition ranked (row : gmap string Z) (vocab : list (Z * string)) : list Counted :=
  merge_sort ranks_before (qualifying row vocab).

(** Modelled from the spec: the Explanation Tag Selector (the selecting
    function is not part of constants.py). Tags below the threshold are
    dropped; when fewer than [minTagsNeededForStatus] tags remain no tag is
    eligible and both slots stay empty; otherwise the two first tags of the
    ranking fill the slots. *)
Definition top_tags (v : Vocabulary) (row : gmap string Z) :
  option string * option string :=
  let r := ranked row (tagsAndTieBreakOrder v) in
  if decide (minTagsNeededForStatus ≤ Z.of_nat (length r))
  then (tag_of <$> r !! 0%nat, tag_of <$> r !! 1%nat)
  else (None, None).

End ExplanationTags.

(** ** Churn-rate limiter *)

Module ChurnLimiter.

Inductive Status := CurrentlyRatedHelpful | CurrentlyRatedNotHelpful | NeedsMoreRatings.

#[global] Instance Status_eq_dec : EqDecision Status.
Proof. solve_decision. Defined.

Definition label (s : Status) : string :=
  match s with
  | CurrentlyRatedHelpful => currentlyRatedHelpful
  | CurrentlyRatedNotHelpful => currentlyRatedNotHelpful
  | NeedsMoreRatings => needsMoreRatings
  end.

(** A proposed (note, oldStatus, newStatus). *)
Record Triple := { note : Z; oldStatus : Status; newStatus : Status }.

Definition flipped (t : Triple) : bool := bool_decide (oldStatus t ≠ newStatus t).

(** Modelled from the spec: membership in a rescoring-rule subset (the
    Rescoring Rule Selector is not part of constants.py, which declares
    [NoteSubset]). A subset without a note set takes every note the rules
    before it left. *)
Definition claims (s : NoteSubset) (n : Z) : bool :=
  match noteSet s with
  | None => true
  | Some ns => bool_decide (n ∈ ns)
  end.

(** Modelled from the spec: the subset of a note is the first one, in the
    order of the rules, that claims it. *)
Fixpoint subset_of (subsets : list NoteSubset) (n : Z) : option nat :=
  match subsets with
  | [] => None
  | s :: rest => if claims s n then Some 0%nat else S <$> subset_of rest n
  end.

Definition subset_triples (subsets : list NoteSubset) (i : nat)
    (triples : list Triple) : list Triple :=
  filter (λ t, subset_of subsets (note t) = Some i) triples.

(** Modelled from the spec: churnRate, the share of the triples of a subset
    whose status changes. A subset without triples has rate 0 (division by
    zero in [Q] gives 0). *)
Definition churnRate (ts : list Triple) : Q :=
  (inject_Z (Z.of_nat (length (filter (λ t, flipped t = true) ts)))
     / inject_Z (Z.of_nat (length ts)))%Q.

Definition exceeds (s : NoteSubset) (ts : list Triple) : bool :=
  negb (Qle_bool (churnRate ts) (maxCrhChurnRate s)).

Inductive Verdict := Accepted | ChurnLimitExceeded (rule : RescoringRuleID).

(** Modelled from the spec: the Churn-Rate Limiter (not part of
    constants.py). The subsets are checked in order; the first whose rate
    exceeds its maximum fails the run; no flip is dropped. *)
Fixpoint check_subsets (all : list NoteSubset) (i : nat) (todo : list NoteSubset)
    (triples : list Triple) : Verdict :=
  match todo with
  | [] => Accepted
  | s :: rest =>
      if exceeds s (subset_triples all i triples)
      then ChurnLimitExceeded (description s)
      else check_subsets all (S i) rest triples
  end.

Definition limiter (subsets : list NoteSubset) (triples : list Triple) : Verdict :=
  check_subsets subsets 0 subsets triples.

(** The persisted current label of every note. *)
Definition write_statuses (history : gmap Z Status) (triples : list Triple) :
  gmap Z Status :=
  foldl (λ h t, <[note t := newStatus t]> h) history triples.

(** Modelled from the spec: the commit of a run (not part of constants.py):
    all triples are written when the limiter accepts, none when it fails.
    The result is the verdict and the persisted history after the run. *)
Definition run (history : gmap Z Status) (subsets : list NoteSubset)
    (triples : list Triple) : Verdict * gmap Z Status :=
  match limiter subsets triples with
  | Accepted => (Accepted, write_statuses history triples)
  | ChurnLimitExceeded r => (ChurnLimitExceeded r, history)
  end.

End ChurnLimiter.

(** ** The wording of the specification, for comparison with the module *)

Module Wording.

(** The fields the specification lists for a StatusHistoryRecord, each by
    the column that stores it, in the order of the specification. *)
Definition statusHistoryRecordFields : list string :=
  [ createdAtMillisKey;
    firstNonNMRLabelKey; timestampMillisOfNoteFirstNonNMRLabelKey;
    currentLabelKey; timestampMillisOfNoteCurrentLabelKey;
    mostRecentNonNMRLabelKey; timestampMillisOfNoteMostRecentNonNMRLabelKey;
    timestampMillisOfStatusLockKey; lockedStatusKey;
    timestampMillisOfRetroLockKey;
    currentCoreStatusKey; currentExpansionStatusKey; currentGroupStatusKey;
    currentDecidedByKey;
    currentModelingGroupKey;
    timestampMillisOfMostRecentStatusChangeKey ].

(** The optional timestamps the specification lists. *)
Definition optionalTimestampFields : list string :=
  [ timestampMillisOfNoteFirstNonNMRLabelKey;
    timestampMillisOfNoteCurrentLabelKey;
    timestampMillisOfNoteMostRecentNonNMRLabelKey;
    timestampMillisOfStatusLockKey;
    timestampMillisOfRetroLockKey;
    timestampMillisOfMostRecentStatusChangeKey ].

End Wording.

(** ** Columns of the status changes *)

(** A column of the note model output is kept by the status changes unless
    it is the note id or has NoteInterceptMin or NoteInterceptMax in its
    name. *)
Definition kept (col : string) (ty : coltype) : Prop :=
  (col, ty) ∈ noteModelOutputTSVColumnsAndTypes
  ∧ col ≠ noteIdKey
  ∧ Py.contains "NoteInterceptMin" col = false
  ∧ Py.contains "NoteInterceptMax" col = false.

(** * Properties *)

(** ** Modeling groups *)

Section groups.

Lemma all_groups_range :
  coreGroups ∪ expansionGroups ∪ expansionPlusGroups = list_to_set (seqZ 0 31).
Proof. vm_compute. reflexivity. Qed.

Lemma disjoint_not_elem (X Y : gset Z) (g : Z) :
  X ∩ Y = ∅ → g ∈ X → g ∉ Y.
Proof.
  intros Hxy Hx Hy.
  assert (Hg : g ∈ X ∩ Y) by (apply elem_of_intersection; done).
  rewrite Hxy in Hg. by apply not_elem_of_empty in Hg.
Qed.

Lemma disjoint_not_elem_r (X Y : gset Z) (g : Z) :
  X ∩ Y = ∅ → g ∈ Y → g ∉ X.
Proof. intros Hxy Hy Hx. by apply (disjoint_not_elem X Y g). Qed.

(** C10: the three modeling-group id sets are pairwise disjoint and their
    union is exactly the integers 0 to 30, so that every id of that range
    belongs to exactly one of the three sets. *)
Theorem modeling_groups_partition :
  coreGroups ∩ expansionGroups = ∅
  ∧ coreGroups ∩ expansionPlusGroups = ∅
  ∧ expansionGroups ∩ expansionPlusGroups = ∅
  ∧ (∀ g : Z, g ∈ coreGroups ∪ expansionGroups ∪ expansionPlusGroups ↔ 0 ≤ g ≤ 30)
  ∧ (∀ g : Z, 0 ≤ g ≤ 30 →
       (g ∈ coreGroups ∧ (g ∉ expansionGroups) ∧ (g ∉ expansionPlusGroups))
       ∨ ((g ∉ coreGroups) ∧ g ∈ expansionGroups ∧ (g ∉ expansionPlusGroups))
       ∨ ((g ∉ coreGroups) ∧ (g ∉ expansionGroups) ∧ g ∈ expansionPlusGroups)).
Proof.
  assert (Hce : coreGroups ∩ expansionGroups = ∅) by (vm_compute; reflexivity).
  assert (Hcp : coreGroups ∩ expansionPlusGroups = ∅) by (vm_compute; reflexivity).
  assert (Hep : expansionGroups ∩ expansionPlusGroups = ∅) by (vm_compute; reflexivity).
  assert (Hall : ∀ g : Z,
             g ∈ coreGroups ∪ expansionGroups ∪ expansionPlusGroups ↔ 0 ≤ g ≤ 30).
  { intros g. rewrite all_groups_range, elem_of_list_to_set, elem_of_seqZ. lia. }
  do 4 (split; [done |]).
  intros g Hg. apply Hall in Hg.
  rewrite !elem_of_union in Hg.
  destruct Hg as [[Hc | He] | Hp]; [left | right; left | right; right];
    split_and!; eauto using disjoint_not_elem, disjoint_not_elem_r.
Qed.

Lemma modeling_groups_partition_witness :
  (18 ∈ coreGroups ∧ (18 ∉ expansionGroups) ∧ (18 ∉ expansionPlusGroups))
  ∨ ((18 ∉ coreGroups) ∧ 18 ∈ expansionGroups ∧ (18 ∉ expansionPlusGroups))
  ∨ ((18 ∉ coreGroups) ∧ (18 ∉ expansionGroups) ∧ 18 ∈ expansionPlusGroups).
Proof.
  apply (proj2 (proj2 (proj2 (proj2 modeling_groups_partition))) 18). lia.
Defined.

End groups.

(** ** Tag vocabularies *)

Section vocabularies.

Import ExplanationTags.

Lemma helpful_other_is_least :
  other_is_least helpfulOtherTagKey helpfulTagsAndTieBreakOrder.
Proof.
  split; [apply list_elem_of_here |].
  unfold helpfulTagsAndTieBreakOrder.
  repeat apply Forall_cons_2; try apply Forall_nil_2; simpl; intros Hne;
    first [lia | by destruct Hne].
Qed.

Lemma notHelpful_other_is_least :
  other_is_least notHelpfulOtherTagKey notHelpfulTagsAndTieBreakOrder.
Proof.
  split; [apply list_elem_of_here |].
  unfold notHelpfulTagsAndTieBreakOrder.
  repeat apply Forall_cons_2; try apply Forall_nil_2; simpl; intros Hne;
    first [lia | by destruct Hne].
Qed.

Lemma helpful_tags_NoDup : NoDup helpfulTagsAndTieBreakOrder.*2.
Proof. apply (bool_decide_unpack _). vm_compute. exact I. Qed.

Lemma notHelpful_tags_NoDup : NoDup notHelpfulTagsAndTieBreakOrder.*2.
Proof. apply (bool_decide_unpack _). vm_compute. exact I. Qed.

Lemma helpful_priorities_NoDup : NoDup helpfulTagsAndTieBreakOrder.*1.
Proof. apply (bool_decide_unpack _). vm_compute. exact I. Qed.

Lemma notHelpful_priorities_NoDup : NoDup notHelpfulTagsAndTieBreakOrder.*1.
Proof. apply (bool_decide_unpack _). vm_compute. exact I. Qed.

(** C3: the helpful vocabulary has 9 tags and the not-helpful vocabulary 13;
    every tag has one fixed priority, no two tags of a vocabulary share one
    (the priorities are 0..8 and 0..12), and in both vocabularies the
    catch-all "other" tag has priority 0 while every other tag has a priority
    above 0, so that it comes first in the ascending tie-break order. *)
Theorem tag_vocabularies_and_priorities :
  length helpfulTagsAndTieBreakOrder = 9%nat
  ∧ length notHelpfulTagsAndTieBreakOrder = 13%nat
  ∧ NoDup helpfulTagsTSVOrder ∧ NoDup notHelpfulTagsTSVOrder
  ∧ (Py.sorted helpfulTagsAndTieBreakOrder).*1 = seqZ 0 9
  ∧ (Py.sorted notHelpfulTagsAndTieBreakOrder).*1 = seqZ 0 13
  ∧ (0, "helpfulOther") ∈ helpfulTagsAndTieBreakOrder
  ∧ (0, "notHelpfulOther") ∈ notHelpfulTagsAndTieBreakOrder
  ∧ (∀ p t, (p, t) ∈ helpfulTagsAndTieBreakOrder → t ≠ "helpfulOther" → 0 < p)
  ∧ (∀ p t, (p, t) ∈ notHelpfulTagsAndTieBreakOrder → t ≠ "notHelpfulOther" → 0 < p)
  ∧ head helpfulTagsTiebreakOrder = Some "helpfulOther"
  ∧ head notHelpfulTagsTiebreakOrder = Some "notHelpfulOther"
  ∧ notHelpfulTagsTiebreakMapping !! "notHelpfulOther" = Some 0.
Proof.
  split_and!; try reflexivity.
  - apply helpful_tags_NoDup.
  - apply notHelpful_tags_NoDup.
  - apply helpful_other_is_least.
  - apply notHelpful_other_is_least.
  - intros p t Hin. destruct helpful_other_is_least as [_ Hall].
    rewrite Forall_forall in Hall. apply (Hall (p, t) Hin).
  - intros p t Hin. destruct notHelpful_other_is_least as [_ Hall].
    rewrite Forall_forall in Hall. apply (Hall (p, t) Hin).
Qed.

Lemma tag_vocabularies_and_priorities_witness : 0 < 12.
Proof.
  apply (proj1 (proj2 (proj2 (proj2 (proj2 (proj2 (proj2 (proj2 (proj2 (proj2
           tag_vocabularies_and_priorities)))))))))
           12 "notHelpfulOutdated").
  - unfold notHelpfulTagsAndTieBreakOrder. do 5 apply list_elem_of_further.
    apply list_elem_of_here.
  - discriminate.
Defined.

End vocabularies.

(** ** Arguments handed between the phases *)

Section arguments.

Import Py.

(** C8: a payload handle has exactly a name (a string) and a size (an
    integer); the prescoring hand-off has exactly one handle for each of
    noteTopics, ratings, noteStatusHistory and userEnrollment, and the final
    scoring hand-off has those four and a handle for each of the prescoring
    note and rater model outputs. *)
Theorem shared_memory_descriptors :
  dataclass_fields SharedMemoryDataframeInfo
    = [("sharedMemoryName", Tstr); ("dataSize", Tint)]
  ∧ (dataclass_fields PrescoringArgsSharedMemory).*1
    = ["noteTopics"; "ratings"; "noteStatusHistory"; "userEnrollment"]
  ∧ (dataclass_fields FinalScoringArgsSharedMemory).*1
    = ((dataclass_fields PrescoringArgsSharedMemory).*1
         ++ ["prescoringNoteModelOutput"; "prescoringRaterModelOutput"])%list
  ∧ Forall (λ f, f.2 = TClass (class_name SharedMemoryDataframeInfo))
           (dataclass_fields PrescoringArgsSharedMemory
              ++ dataclass_fields FinalScoringArgsSharedMemory)%list.
Proof.
  split_and!; try reflexivity.
  repeat apply Forall_cons_2; try apply Forall_nil_2; reflexivity.
Qed.

Lemma ScoringArgs_remove_lookup (self : gmap string PyVal) (k : string) :
  ScoringArgs_remove_large_args_for_multiprocessing self !! k
  = if bool_decide (k ∈ ["noteTopics"; "ratings"; "noteStatusHistory"; "userEnrollment"])
    then Some PyNone else self !! k.
Proof.
  unfold ScoringArgs_remove_large_args_for_multiprocessing, setattr.
  case_bool_decide as Hk.
  - rewrite !elem_of_cons, elem_of_nil in Hk.
    destruct Hk as [-> | [-> | [-> | [-> | []]]]]; by simplify_map_eq.
  - rewrite !not_elem_of_cons in Hk. destruct Hk as (? & ? & ? & ? & _).
    by rewrite !lookup_insert_ne.
Qed.

Lemma FinalScoringArgs_remove_lookup (self : gmap string PyVal) (k : string) :
  FinalScoringArgs_remove_large_args_for_multiprocessing self !! k
  = if bool_decide (k ∈ ["ratings"; "noteStatusHistory"; "userEnrollment";
                         "prescoringNoteModelOutput"; "prescoringRaterModelOutput"])
    then Some PyNone else self !! k.
Proof.
  unfold FinalScoringArgs_remove_large_args_for_multiprocessing, setattr.
  case_bool_decide as Hk.
  - rewrite !elem_of_cons, elem_of_nil in Hk.
    destruct Hk as [-> | [-> | [-> | [-> | [-> | []]]]]]; by simplify_map_eq.
  - rewrite !not_elem_of_cons in Hk. destruct Hk as (? & ? & ? & ? & ? & _).
    by rewrite !lookup_insert_ne.
Qed.

(** C9: on prescoring arguments the call sets noteTopics, ratings,
    noteStatusHistory and userEnrollment to None; on final scoring arguments
    it sets ratings, noteStatusHistory, userEnrollment,
    prescoringNoteModelOutput and prescoringRaterModelOutput to None and
    leaves every other attribute as it was, noteTopics and
    prescoringMetaOutput among them. *)
Theorem remove_large_args_effect (self : gmap string PyVal) :
  (∀ c, c = ScoringArgs ∨ c = PrescoringArgs →
     ∃ self', call c remove_large_args self = Some self'
       ∧ self' !! "noteTopics" = Some PyNone
       ∧ self' !! "ratings" = Some PyNone
       ∧ self' !! "noteStatusHistory" = Some PyNone
       ∧ self' !! "userEnrollment" = Some PyNone)
  ∧ (∃ self', call FinalScoringArgs remove_large_args self = Some self'
       ∧ self' !! "ratings" = Some PyNone
       ∧ self' !! "noteStatusHistory" = Some PyNone
       ∧ self' !! "userEnrollment" = Some PyNone
       ∧ self' !! "prescoringNoteModelOutput" = Some PyNone
       ∧ self' !! "prescoringRaterModelOutput" = Some PyNone
       ∧ (∀ k, k ∉ ["ratings"; "noteStatusHistory"; "userEnrollment";
                    "prescoringNoteModelOutput"; "prescoringRaterModelOutput"] →
               self' !! k = self !! k)
       ∧ self' !! "noteTopics" = self !! "noteTopics"
       ∧ self' !! "prescoringMetaOutput" = self !! "prescoringMetaOutput").
Proof.
  split.
  - intros c [-> | ->];
      (exists (ScoringArgs_remove_large_args_for_multiprocessing self);
       split; [reflexivity |];
       split_and!; by rewrite ScoringArgs_remove_lookup).
  - exists (FinalScoringArgs_remove_large_args_for_multiprocessing self).
    split; [reflexivity |].
    split_and!; try by rewrite FinalScoringArgs_remove_lookup.
    intros k Hk. rewrite FinalScoringArgs_remove_lookup.
    by rewrite bool_decide_eq_false_2.
Qed.

Lemma remove_large_args_effect_witness :
  ∃ self',
    call PrescoringArgs remove_large_args
         {[ "noteTopics" := PyRef 1; "ratings" := PyRef 2;
            "noteStatusHistory" := PyRef 3; "userEnrollment" := PyRef 4 ]}
      = Some self'
    ∧ self' !! "noteTopics" = Some PyNone
    ∧ self' !! "ratings" = Some PyNone
    ∧ self' !! "noteStatusHistory" = Some PyNone
    ∧ self' !! "userEnrollment" = Some PyNone.
Proof.
  apply (proj1 (remove_large_args_effect _) PrescoringArgs). right. reflexivity.
Defined.

End arguments.

(** ** Note status history schema *)

Section status_history.

Lemma status_history_columns_NoDup : NoDup noteStatusHistoryTSVColumns.
Proof. apply (bool_decide_unpack _). vm_compute. exact I. Qed.

(** The schema has two columns the specification's list of fields does not
    have, the note id and the id of the note's author: the columns are not
    exactly the listed fields. *)
Lemma status_history_has_unlisted_columns :
  ¬ (∀ c, c ∈ noteStatusHistoryTSVColumns ↔ c ∈ Wording.statusHistoryRecordFields).
Proof.
  intros Hsame.
  assert (Hin : noteAuthorParticipantIdKey ∈ noteStatusHistoryTSVColumns).
  { apply (bool_decide_unpack _). vm_compute. exact I. }
  apply Hsame in Hin. revert Hin.
  apply (bool_decide_unpack _). vm_compute. exact I.
Qed.

(** C6, amended: a status-history row has exactly 18 columns: the note id,
    the id of the note's author, and the sixteen fields the specification
    lists (creation time; first non-NMR label, current label and most recent
    non-NMR label, each with its timestamp; lock timestamp and locked label;
    retro-lock timestamp; core, expansion and group labels; decidedBy;
    modeling group; timestamp of the most recent status change). *)
Theorem status_history_record_columns :
  length noteStatusHistoryTSVColumns = 18%nat
  ∧ NoDup noteStatusHistoryTSVColumns
  ∧ length Wording.statusHistoryRecordFields = 16%nat
  ∧ noteStatusHistoryTSVColumns
      ≡ₚ noteIdKey :: noteAuthorParticipantIdKey :: Wording.statusHistoryRecordFields
  ∧ (∀ c, c ∈ noteStatusHistoryTSVColumns ↔
          c = noteIdKey ∨ c = noteAuthorParticipantIdKey
          ∨ c ∈ Wording.statusHistoryRecordFields).
Proof.
  assert (Hperm : noteStatusHistoryTSVColumns
      ≡ₚ noteIdKey :: noteAuthorParticipantIdKey :: Wording.statusHistoryRecordFields).
  { apply NoDup_Permutation.
    - apply status_history_columns_NoDup.
    - apply (bool_decide_unpack _). vm_compute. exact I.
    - intros c. rewrite <- !(elem_of_list_to_set (C := gset string)).
      assert (Heq : list_to_set noteStatusHistoryTSVColumns
                    =@{gset string} list_to_set (noteIdKey :: noteAuthorParticipantIdKey
                                          :: Wording.statusHistoryRecordFields))
        by (vm_compute; reflexivity).
      by rewrite Heq. }
  split_and!; try reflexivity; try done.
  - apply status_history_columns_NoDup.
  - intros c. rewrite Hperm, !elem_of_cons. tauto.
Qed.

(** *** Missing timestamps *)

Lemma shr_1_nonneg mrs : 0 ≤ shr_m mrs → 0 ≤ shr_m (shr_1 mrs).
Proof.
  destruct mrs as [m r s]. simpl.
  destruct m as [| [p | p |] | p]; simpl; lia.
Qed.

Lemma iter_shr_1_nonneg p mrs :
  0 ≤ shr_m mrs → 0 ≤ shr_m (SpecFloat.iter_pos shr_1 p mrs).
Proof.
  revert mrs. induction p as [p IH | p IH |]; intros mrs H; simpl;
    auto using shr_1_nonneg.
Qed.

Lemma shr_fexp_nonneg prec emax m e l :
  0 ≤ m → 0 ≤ shr_m (shr_fexp prec emax m e l).1.
Proof.
  intros Hm. unfold shr_fexp, shr.
  assert (H0 : 0 ≤ shr_m (shr_record_of_loc m l)).
  { destruct l as [| []]; simpl; lia. }
  destruct (fexp prec emax (Zdigits2 m + e) - e); simpl; auto using iter_shr_1_nonneg.
Qed.

Lemma round_nearest_even_nonneg mx lx : 0 ≤ mx → 0 ≤ round_nearest_even mx lx.
Proof.
  intros H. unfold round_nearest_even.
  destruct lx as [| []]; try destruct (Z.even mx); lia.
Qed.

Lemma binary_round_aux_not_nan prec emax sx mx ex lx :
  0 ≤ mx → Double.isna (binary_round_aux prec emax sx mx ex lx) = false.
Proof.
  intros Hm. unfold binary_round_aux.
  pose proof (shr_fexp_nonneg prec emax mx ex lx Hm) as H1.
  destruct (shr_fexp prec emax mx ex lx) as [mrs' e']. simpl in H1.
  pose proof (shr_fexp_nonneg prec emax _ e' loc_Exact
                (round_nearest_even_nonneg _ (loc_of_shr_record mrs') H1)) as H2.
  destruct (shr_fexp prec emax _ e' loc_Exact) as [mrs'' e'']. simpl in H2.
  destruct (shr_m mrs'') as [| m | m]; [done | | lia].
  by destruct (e'' <=? emax - prec).
Qed.

(** The double of an integer timestamp is never NaN. *)
Lemma of_int_not_nan z : Double.isna (Double.of_int z) = false.
Proof.
  unfold Double.of_int, binary_normalize.
  destruct z as [| p | p]; [done | |]; unfold binary_round;
    destruct (shl_align _ _ _) as [mz ez]; by apply binary_round_aux_not_nan.
Qed.

(** C7: each of the six optional timestamps of the status history (first
    non-NMR, current, most recent non-NMR, status lock, retro lock, most
    recent status change) is a [np.double] column, the type that can hold a
    missing cell as NaN; NaN is recognised as missing, the double of
    timestamp zero (and of any integer timestamp) is not, and the two differ
    both as values and under floating-point comparison. *)
Theorem optional_timestamps_are_nullable :
  Forall (λ k, noteStatusHistoryTSVTypeMapping !! k = Some np_double)
         Wording.optionalTimestampFields
  ∧ Wording.optionalTimestampFields
    = filter (λ k, Py.startswith "timestampMillis" k = true) noteStatusHistoryTSVColumns
  ∧ Double.missing np_double = Some Double.nan
  ∧ Double.missing np_int64 = None
  ∧ Double.isna Double.nan = true
  ∧ Double.of_int 0 = S754_zero false
  ∧ Double.isna (Double.of_int 0) = false
  ∧ Double.nan ≠ Double.of_int 0
  ∧ SFeqb Double.nan (Double.of_int 0) = false
  ∧ (∀ millis : Z, Double.isna (Double.of_int millis) = false
                   ∧ Double.nan ≠ Double.of_int millis).
Proof.
  split_and!; try reflexivity; try done.
  - repeat apply Forall_cons_2; try apply Forall_nil_2; vm_compute; reflexivity.
  - intros millis. pose proof (of_int_not_nan millis) as Hn.
    split; [done |]. intros Heq. rewrite <- Heq in Hn. discriminate.
Qed.

End status_history.

(** ** Rescoring rules and maximum churn rates *)

Section rescoring_rules.

Local Open Scope Q_scope.

(** A share of flipped notes is at most 1. *)
Lemma share_le_one (flips total : Z) :
  (0 ≤ flips ≤ total)%Z → inject_Z flips / inject_Z total <= 1.
Proof.
  intros [H0 Hle].
  destruct (decide (total = 0%Z)) as [-> | Hne].
  - assert (flips = 0%Z) as -> by lia. done.
  - apply Qle_shift_div_r.
    + change 0 with (inject_Z 0). rewrite <- Zlt_Qlt. lia.
    + rewrite Qmult_1_l. rewrite <- Zle_Qle. lia.
Qed.



End rescoring_rules.

(** ** Churn-rate limiter *)

Section churn_limiter.

Import ChurnLimiter.
Local Open Scope Q_scope.

Lemma exceeds_false (s : NoteSubset) (ts : list Triple) :
  exceeds s ts = false ↔ churnRate ts <= maxCrhChurnRate s.
Proof.
  unfold exceeds. rewrite negb_false_iff. apply Qle_bool_iff.
Qed.

Lemma exceeds_true (s : NoteSubset) (ts : list Triple) :
  exceeds s ts = true ↔ maxCrhChurnRate s < churnRate ts.
Proof.
  unfold exceeds. rewrite negb_true_iff. split.
  - intros Hb. apply Qnot_le_lt. intros Hle.
    apply Qle_bool_iff in Hle. congruence.
  - intros Hlt. destruct (Qle_bool _ _) eqn:Hb; [| done].
    apply Qle_bool_iff in Hb. by apply Qlt_not_le in Hlt.
Qed.

(** The rate of any list of triples is between 0 and 1. *)
Lemma churnRate_le_one (ts : list Triple) : churnRate ts <= 1.
Proof.
  unfold churnRate. apply share_le_one. split; [lia |].
  apply inj_le, length_filter.
Qed.

Lemma check_subsets_accepted all (todo : list NoteSubset) triples (i : nat) :
  check_subsets all i todo triples = Accepted →
  ∀ (j : nat) s, todo !! j = Some s →
    exceeds s (subset_triples all (i + j) triples) = false.
Proof.
  revert i. induction todo as [| s0 rest IH]; intros i Hacc j s Hj; [done |].
  simpl in Hacc.
  destruct (exceeds s0 (subset_triples all i triples)) eqn:Hex; [done |].
  destruct j as [| j]; simpl in Hj.
  - injection Hj as <-. by rewrite Nat.add_0_r.
  - replace (i + S j)%nat with (S i + j)%nat by lia. by eapply IH.
Qed.

Lemma check_subsets_exceeded all (todo : list NoteSubset) triples (i j : nat) s :
  todo !! j = Some s →
  exceeds s (subset_triples all (i + j) triples) = true →
  ∃ r, check_subsets all i todo triples = ChurnLimitExceeded r.
Proof.
  revert i j. induction todo as [| s0 rest IH]; intros i j Hj Hex; [done |].
  simpl. destruct (exceeds s0 (subset_triples all i triples)) eqn:Hex0; [by eexists |].
  destruct j as [| j]; simpl in Hj.
  - injection Hj as <-. rewrite Nat.add_0_r in Hex. congruence.
  - apply (IH (S i) j Hj). by replace (S i + j)%nat with (i + S j)%nat by lia.
Qed.

Lemma write_statuses_other (history : gmap Z Status) triples (n : Z) :
  n ∉ note <$> triples → write_statuses history triples !! n = history !! n.
Proof.
  revert history. induction triples as [| t ts IH]; intros history Hn; [done |].
  rewrite fmap_cons, not_elem_of_cons in Hn. destruct Hn as [Hne Hn].
  unfold write_statuses in *. simpl. rewrite (IH _ Hn).
  by rewrite lookup_insert_ne.
Qed.

(** When the triples name every note once, each proposed status is written. *)
Lemma write_statuses_all (history : gmap Z Status) triples (t : Triple) :
  NoDup (note <$> triples) → t ∈ triples →
  write_statuses history triples !! note t = Some (newStatus t).
Proof.
  revert history. induction triples as [| t0 ts IH]; intros history Hnd Hin.
  - by apply elem_of_nil in Hin.
  - rewrite fmap_cons in Hnd. apply NoDup_cons in Hnd as [Hfresh Hnd].
    apply elem_of_cons in Hin as [-> | Hin].
    + change (write_statuses history (t0 :: ts))
        with (write_statuses (<[note t0 := newStatus t0]> history) ts).
      rewrite (write_statuses_other _ _ _ Hfresh). apply lookup_insert_eq.
    + change (write_statuses history (t0 :: ts))
        with (write_statuses (<[note t0 := newStatus t0]> history) ts).
      by apply IH.
Qed.

(** A subset whose maximum is 1e8 never fails a run: its rate is at most 1. *)
Lemma unlimited_never_exceeds (s : NoteSubset) (ts : list Triple) :
  maxCrhChurnRate s == finalNotesThatJustFlippedStatusMaxCrhChurn →
  exceeds s ts = false.
Proof.
  intros Hmax. apply exceeds_false. rewrite Hmax.
  eapply Qle_trans; [apply churnRate_le_one | done].
Qed.

(** C2: in a run that is committed, the churn rate of every rescoring-rule
    subset (flipped triples over triples of the subset) is at most the maximum
    of the subset, and every proposed status is written, none dropped; a run
    in which some subset exceeds its maximum fails and leaves the persisted
    history as the previous run left it. *)
Theorem churn_limit_gate (history : gmap Z Status) (subsets : list NoteSubset)
    (triples : list Triple) :
  (∀ history', run history subsets triples = (Accepted, history') →
     (∀ (i : nat) s, subsets !! i = Some s →
        churnRate (subset_triples subsets i triples) <= maxCrhChurnRate s)
     ∧ history' = write_statuses history triples
     ∧ (NoDup (note <$> triples) →
        ∀ t, t ∈ triples → history' !! note t = Some (newStatus t)))
  ∧ (∀ (i : nat) s, subsets !! i = Some s →
       maxCrhChurnRate s < churnRate (subset_triples subsets i triples) →
       ∃ r, run history subsets triples = (ChurnLimitExceeded r, history)).
Proof.
  split.
  - intros history' Hrun. unfold run in Hrun.
    destruct (limiter subsets triples) eqn:Hlim; [| done].
    injection Hrun as <-. split_and!; [| done |].
    + intros i s Hi. apply exceeds_false.
      by apply (check_subsets_accepted subsets subsets triples 0 Hlim i s).
    + intros Hnd t Ht. by apply write_statuses_all.
  - intros i s Hi Hlt. apply exceeds_true in Hlt.
    destruct (check_subsets_exceeded subsets subsets triples 0 i s Hi Hlt) as [r Hr].
    exists r. unfold run, limiter. by rewrite Hr.
Qed.

Lemma churn_limit_gate_witness :
  (churnRate (subset_triples
      [ {| noteSet := None; maxCrhChurnRate := finalNotesWithNewRatingsMaxCrhChurn;
           description := NOTES_WITH_NEW_RATINGS |} ] 0
      [ {| note := 7; oldStatus := NeedsMoreRatings; newStatus := NeedsMoreRatings |};
        {| note := 8; oldStatus := NeedsMoreRatings; newStatus := NeedsMoreRatings |};
        {| note := 9; oldStatus := NeedsMoreRatings;
           newStatus := CurrentlyRatedHelpful |} ])
    <= finalNotesWithNewRatingsMaxCrhChurn)
  ∧ ∃ r, run {[ 7%Z := NeedsMoreRatings ]}
             [ {| noteSet := None;
                  maxCrhChurnRate := prescoringAllUnlockedNotesMaxCrhChurn;
                  description := ALL_NOTES |} ]
             [ {| note := 7; oldStatus := NeedsMoreRatings;
                  newStatus := CurrentlyRatedHelpful |} ]
         = (ChurnLimitExceeded r, {[ 7%Z := NeedsMoreRatings ]}).
Proof.
  split.
  - apply (proj1 (proj1 (churn_limit_gate ∅
        [ {| noteSet := None; maxCrhChurnRate := finalNotesWithNewRatingsMaxCrhChurn;
             description := NOTES_WITH_NEW_RATINGS |} ]
        [ {| note := 7; oldStatus := NeedsMoreRatings; newStatus := NeedsMoreRatings |};
          {| note := 8; oldStatus := NeedsMoreRatings; newStatus := NeedsMoreRatings |};
          {| note := 9; oldStatus := NeedsMoreRatings;
             newStatus := CurrentlyRatedHelpful |} ]) _ eq_refl) 0%nat
        {| noteSet := None; maxCrhChurnRate := finalNotesWithNewRatingsMaxCrhChurn;
           description := NOTES_WITH_NEW_RATINGS |} eq_refl).
  - apply (proj2 (churn_limit_gate {[ 7%Z := NeedsMoreRatings ]}
        [ {| noteSet := None; maxCrhChurnRate := prescoringAllUnlockedNotesMaxCrhChurn;
             description := ALL_NOTES |} ]
        [ {| note := 7; oldStatus := NeedsMoreRatings;
             newStatus := CurrentlyRatedHelpful |} ]) 0%nat
        {| noteSet := None; maxCrhChurnRate := prescoringAllUnlockedNotesMaxCrhChurn;
           description := ALL_NOTES |} eq_refl).
    vm_compute. reflexivity.
Defined.

End churn_limiter.

(** ** Explanation tag selector *)

Section tag_selector.

Import ExplanationTags.

#[local] Instance ranks_before_total : Total ranks_before.
Proof. intros a b. unfold ranks_before. lia. Qed.

#[local] Instance ranks_before_trans : Transitive ranks_before.
Proof. intros a b c. unfold ranks_before. lia. Qed.

Lemma elem_of_qualifying (row : gmap string Z) vocab (c : Counted) :
  c ∈ qualifying row vocab ↔
  ∃ p t, (p, t) ∈ vocab ∧ c = (tagCount row t, p, t)
         ∧ minRatingsToGetTag ≤ tagCount row t.
Proof.
  unfold qualifying, counted, reaches_threshold.
  rewrite list_elem_of_filter, list_elem_of_fmap, bool_decide_eq_true. split.
  - intros [Hc [[p t] [-> Hin]]]. by exists p, t.
  - intros (p & t & Hin & -> & Hc). split; [done |]. by exists (p, t).
Qed.

Lemma elem_of_ranked (row : gmap string Z) vocab (c : Counted) :
  c ∈ ranked row vocab ↔ c ∈ qualifying row vocab.
Proof. unfold ranked. by rewrite merge_sort_Permutation. Qed.

Lemma length_ranked (row : gmap string Z) vocab :
  length (ranked row vocab) = length (qualifying row vocab).
Proof. unfold ranked. by rewrite merge_sort_Permutation. Qed.

Lemma ranked_sorted (row : gmap string Z) vocab :
  StronglySorted ranks_before (ranked row vocab).
Proof. apply (StronglySorted_merge_sort ranks_before). Qed.

(** The selection depends on the row through the counts of the vocabulary's
    tags only. *)
Lemma counted_ext (row row' : gmap string Z) vocab :
  (∀ p t, (p, t) ∈ vocab → tagCount row t = tagCount row' t) →
  counted row vocab = counted row' vocab.
Proof.
  intros Hsame. unfold counted. apply list_eq_Forall2, Forall2_fmap, Forall2_same_length_lookup.
  split; [done |]. intros i [p t] [p' t'] Hi Hi'.
  rewrite Hi in Hi'. injection Hi' as <- <-. simpl.
  rewrite (Hsame p t); [done |]. by eapply list_elem_of_lookup_2.
Qed.

(** What it means for a slot of the selection to hold a tag. *)
Lemma top_tags_first (v : Vocabulary) (row : gmap string Z) (t : string) :
  (top_tags v row).1 = Some t →
  minTagsNeededForStatus ≤ Z.of_nat (length (qualifying row (tagsAndTieBreakOrder v)))
  ∧ ∃ c, ranked row (tagsAndTieBreakOrder v) !! 0%nat = Some c ∧ tag_of c = t.
Proof.
  unfold top_tags. rewrite length_ranked. case_decide as Hlen; [| done].
  simpl. intros Hfst. split; [done |].
  destruct (ranked row (tagsAndTieBreakOrder v) !! 0%nat) as [c |]; [| done].
  exists c. split; [done |]. by injection Hfst.
Qed.

Lemma top_tags_second (v : Vocabulary) (row : gmap string Z) (t : string) :
  (top_tags v row).2 = Some t →
  minTagsNeededForStatus ≤ Z.of_nat (length (qualifying row (tagsAndTieBreakOrder v)))
  ∧ ∃ c, ranked row (tagsAndTieBreakOrder v) !! 1%nat = Some c ∧ tag_of c = t.
Proof.
  unfold top_tags. rewrite length_ranked. case_decide as Hlen; [| done].
  simpl. intros Hsnd. split; [done |].
  destruct (ranked row (tagsAndTieBreakOrder v) !! 1%nat) as [c |]; [| done].
  exists c. split; [done |]. by injection Hsnd.
Qed.

Lemma vocabulary_tags_NoDup (v : Vocabulary) : NoDup (tagsAndTieBreakOrder v).*2.
Proof. destruct v; [apply helpful_tags_NoDup | apply notHelpful_tags_NoDup]. Qed.

(** A tag stands in a vocabulary once, so it has one priority. *)
Lemma vocabulary_priority_unique (v : Vocabulary) (p p' : Z) (t : string) :
  (p, t) ∈ tagsAndTieBreakOrder v → (p', t) ∈ tagsAndTieBreakOrder v → p = p'.
Proof.
  intros Hin Hin'. pose proof (vocabulary_tags_NoDup v) as Hnd.
  apply list_elem_of_lookup in Hin as [i Hi]. apply list_elem_of_lookup in Hin' as [j Hj].
  assert (i = j) as ->.
  { apply (NoDup_lookup _ i j t Hnd); rewrite list_lookup_fmap.
    - by rewrite Hi. - by rewrite Hj. }
  congruence.
Qed.

(** An entry of the ranking is determined by its tag. *)
Lemma ranked_entry_of_tag (v : Vocabulary) (row : gmap string Z) (c : Counted)
    (p : Z) (t : string) :
  c ∈ ranked row (tagsAndTieBreakOrder v) → tag_of c = t →
  (p, t) ∈ tagsAndTieBreakOrder v → c = (tagCount row t, p, t).
Proof.
  intros Hc Htag Hin.
  apply elem_of_ranked, elem_of_qualifying in Hc as (p' & t' & Hin' & -> & _).
  simpl in Htag. subst t'.
  by rewrite (vocabulary_priority_unique v p p' t Hin Hin').
Qed.

Lemma top_tags_enough (v : Vocabulary) (row : gmap string Z) :
  minTagsNeededForStatus ≤ Z.of_nat (length (qualifying row (tagsAndTieBreakOrder v))) →
  top_tags v row
  = (tag_of <$> ranked row (tagsAndTieBreakOrder v) !! 0%nat,
     tag_of <$> ranked row (tagsAndTieBreakOrder v) !! 1%nat).
Proof.
  intros Hlen. unfold top_tags. rewrite length_ranked. by rewrite decide_True.
Qed.

Lemma top_tags_too_few (v : Vocabulary) (row : gmap string Z) :
  Z.of_nat (length (qualifying row (tagsAndTieBreakOrder v))) < minTagsNeededForStatus →
  top_tags v row = (None, None).
Proof.
  intros Hlen. unfold top_tags. rewrite length_ranked. rewrite decide_False; [done | lia].
Qed.

(** The number of qualifying entries is the number of tags of the vocabulary
    with enough votes. *)
Lemma length_qualifying (row : gmap string Z) vocab :
  length (qualifying row vocab)
  = length (filter (λ pt : Z * string, minRatingsToGetTag ≤ tagCount row pt.2) vocab).
Proof.
  unfold qualifying, counted, reaches_threshold.
  induction vocab as [| [p t] vocab IH]; [done |].
  cbn [map].
  destruct (decide (minRatingsToGetTag ≤ tagCount row t)) as [Hge | Hlt].
  - rewrite !filter_cons_True; [| done | by apply bool_decide_eq_true].
    simpl. by rewrite IH.
  - rewrite !filter_cons_False; [done | done |].
    by rewrite bool_decide_eq_true.
Qed.

(** Of two tags with enough votes and the same count, the one of lower
    priority is never first, and is second only behind the other. *)
Lemma tie_goes_to_higher_priority (v : Vocabulary) (row : gmap string Z)
    (p1 p2 : Z) (t1 t2 : string) :
  (p1, t1) ∈ tagsAndTieBreakOrder v → (p2, t2) ∈ tagsAndTieBreakOrder v →
  tagCount row t1 = tagCount row t2 →
  minRatingsToGetTag ≤ tagCount row t1 →
  p2 < p1 →
  (top_tags v row).1 ≠ Some t2
  ∧ ((top_tags v row).2 = Some t2 → (top_tags v row).1 = Some t1).
Proof.
  intros Hin1 Hin2 Hcount Hmin Hprio.
  set (a := (tagCount row t1, p1, t1) : Counted).
  set (b := (tagCount row t2, p2, t2) : Counted).
  assert (Ha : a ∈ ranked row (tagsAndTieBreakOrder v)).
  { apply elem_of_ranked, elem_of_qualifying. by exists p1, t1. }
  assert (Hab : a ≠ b) by (unfold a, b; intros Heq; injection Heq; lia).
  assert (Hnot : ¬ ranks_before b a).
  { unfold ranks_before, a, b, count_of, priority_of. simpl. lia. }
  pose proof (ranked_sorted row (tagsAndTieBreakOrder v)) as Hsorted.
  split.
  - intros Hfst. apply top_tags_first in Hfst as [_ (c & Hc & Htag)].
    assert (c = b) as ->.
    { apply (ranked_entry_of_tag v row c p2 t2); [| done | done].
      by eapply list_elem_of_lookup_2. }
    destruct (ranked row (tagsAndTieBreakOrder v)) as [| x l]; [done |].
    injection Hc as ->.
    apply elem_of_cons in Ha as [Ha | Ha]; [done |].
    apply StronglySorted_cons in Hsorted as [Hall _].
    rewrite Forall_forall in Hall. by apply Hnot, Hall.
  - intros Hsnd. pose proof Hsnd as Hsnd'.
    apply top_tags_second in Hsnd' as [Hlen (c & Hc & Htag)].
    assert (c = b) as ->.
    { apply (ranked_entry_of_tag v row c p2 t2); [| done | done].
      by eapply list_elem_of_lookup_2. }
    rewrite (top_tags_enough v row Hlen). simpl.
    destruct (ranked row (tagsAndTieBreakOrder v)) as [| x [| y l]]; [done | done |].
    injection Hc as ->. simpl.
    apply elem_of_cons in Ha as [Ha | Ha]; [by rewrite <- Ha |].
    apply elem_of_cons in Ha as [Ha | Ha]; [done |].
    apply StronglySorted_cons in Hsorted as [_ Hsorted].
    apply StronglySorted_cons in Hsorted as [Hall _].
    rewrite Forall_forall in Hall. by destruct Hnot; apply Hall.
Qed.

Lemma ranks_before_refl (c : Counted) : ranks_before c c.
Proof. unfold ranks_before. lia. Qed.

(** The ranking names every tag once. *)
Lemma ranked_tags_NoDup (v : Vocabulary) (row : gmap string Z) :
  NoDup (tag_of <$> ranked row (tagsAndTieBreakOrder v)).
Proof.
  unfold ranked. rewrite merge_sort_Permutation. unfold qualifying.
  eapply sublist_NoDup; [| apply fmap_sublist, sublist_filter].
  unfold counted. change (map ?f ?l) with (f <$> l).
  rewrite <- list_fmap_compose. apply vocabulary_tags_NoDup.
Qed.

(** With enough qualifying tags both slots are filled, by the two tags the
    ranking puts first: the first ranks before every qualifying tag, the
    second before every other one. *)
Lemma top_tags_selects (v : Vocabulary) (row : gmap string Z) :
  minTagsNeededForStatus
    ≤ Z.of_nat (length (qualifying row (tagsAndTieBreakOrder v))) →
  ∃ c1 c2 : Counted,
    top_tags v row = (Some (tag_of c1), Some (tag_of c2))
    ∧ c1 ∈ qualifying row (tagsAndTieBreakOrder v)
    ∧ c2 ∈ qualifying row (tagsAndTieBreakOrder v)
    ∧ tag_of c1 ≠ tag_of c2
    ∧ (∀ c, c ∈ qualifying row (tagsAndTieBreakOrder v) → ranks_before c1 c)
    ∧ (∀ c, c ∈ qualifying row (tagsAndTieBreakOrder v) → c ≠ c1 →
            ranks_before c2 c).
Proof.
  intros Hlen. rewrite (top_tags_enough v row Hlen).
  pose proof (ranked_sorted row (tagsAndTieBreakOrder v)) as Hsorted.
  pose proof (ranked_tags_NoDup v row) as Hnd.
  pose proof (elem_of_ranked row (tagsAndTieBreakOrder v)) as Hmem.
  rewrite <- length_ranked in Hlen. unfold minTagsNeededForStatus in Hlen.
  destruct (ranked row (tagsAndTieBreakOrder v)) as [| c1 [| c2 l]];
    [simpl in Hlen; lia | simpl in Hlen; lia |].
  exists c1, c2. simpl.
  apply StronglySorted_cons in Hsorted as [Hall1 Hsorted].
  apply StronglySorted_cons in Hsorted as [Hall2 _].
  rewrite Forall_forall in Hall1. rewrite Forall_forall in Hall2.
  rewrite !fmap_cons in Hnd. apply NoDup_cons in Hnd as [Hne _].
  split_and!.
  - done.
  - apply Hmem. left.
  - apply Hmem. right. left.
  - intros Heq. apply Hne. rewrite Heq. left.
  - intros c Hc. apply Hmem, elem_of_cons in Hc as [-> | Hc];
      [apply ranks_before_refl | by apply Hall1].
  - intros c Hc Hne1. apply Hmem, elem_of_cons in Hc as [-> | Hc]; [done |].
    apply elem_of_cons in Hc as [-> | Hc];
      [apply ranks_before_refl | by apply Hall2].
Qed.

(** Two tags with enough votes make the note eligible. *)
Lemma two_qualifying_tags (v : Vocabulary) (row : gmap string Z)
    (p1 p2 : Z) (t1 t2 : string) :
  (p1, t1) ∈ tagsAndTieBreakOrder v → (p2, t2) ∈ tagsAndTieBreakOrder v →
  t1 ≠ t2 →
  minRatingsToGetTag ≤ tagCount row t1 → minRatingsToGetTag ≤ tagCount row t2 →
  minTagsNeededForStatus
    ≤ Z.of_nat (length (qualifying row (tagsAndTieBreakOrder v))).
Proof.
  intros Hin1 Hin2 Hne Hm1 Hm2.
  assert (Ha : (tagCount row t1, p1, t1) ∈ qualifying row (tagsAndTieBreakOrder v)).
  { apply elem_of_qualifying. by exists p1, t1. }
  assert (Hb : (tagCount row t2, p2, t2) ∈ qualifying row (tagsAndTieBreakOrder v)).
  { apply elem_of_qualifying. by exists p2, t2. }
  unfold minTagsNeededForStatus.
  destruct (qualifying row (tagsAndTieBreakOrder v)) as [| x [| y l]]; simpl.
  - by apply elem_of_nil in Ha.
  - apply list_elem_of_singleton in Ha, Hb. congruence.
  - lia.
Qed.

(** The tag that ranks before all the other tags of the vocabulary is first. *)
Lemma leader_is_first (v : Vocabulary) (row : gmap string Z) (p1 : Z) (t1 : string) :
  (p1, t1) ∈ tagsAndTieBreakOrder v →
  minRatingsToGetTag ≤ tagCount row t1 →
  minTagsNeededForStatus
    ≤ Z.of_nat (length (qualifying row (tagsAndTieBreakOrder v))) →
  (∀ p t, (p, t) ∈ tagsAndTieBreakOrder v → t ≠ t1 →
          tagCount row t < tagCount row t1
          ∨ (tagCount row t = tagCount row t1 ∧ p < p1)) →
  (top_tags v row).1 = Some t1.
Proof.
  intros Hin1 Hmin Hlen Hlead.
  destruct (top_tags_selects v row Hlen) as (c1 & c2 & -> & Hc1 & _ & _ & Htop & _).
  simpl. f_equal.
  assert (Ha : (tagCount row t1, p1, t1) ∈ qualifying row (tagsAndTieBreakOrder v)).
  { apply elem_of_qualifying. by exists p1, t1. }
  apply Htop in Ha.
  apply elem_of_qualifying in Hc1 as (p & t & Hin & -> & _).
  simpl. destruct (decide (t = t1)) as [| Hne]; [done |].
  destruct (Hlead p t Hin Hne) as [Hlt | [Heq Hlt]];
    unfold ranks_before, count_of, priority_of in Ha; simpl in Ha; lia.
Qed.

(** Two tied tags that have more votes than every other tag fill the two
    slots, the one of higher priority first. *)
Lemma tied_leaders_are_selected (v : Vocabulary) (row : gmap string Z)
    (p1 p2 : Z) (t1 t2 : string) :
  (p1, t1) ∈ tagsAndTieBreakOrder v → (p2, t2) ∈ tagsAndTieBreakOrder v →
  tagCount row t1 = tagCount row t2 →
  minRatingsToGetTag ≤ tagCount row t1 →
  p2 < p1 →
  (∀ p t, (p, t) ∈ tagsAndTieBreakOrder v → t ≠ t1 → t ≠ t2 →
          tagCount row t < tagCount row t1) →
  top_tags v row = (Some t1, Some t2).
Proof.
  intros Hin1 Hin2 Hcount Hmin Hprio Hrest.
  assert (Hne : t1 ≠ t2).
  { intros ->. pose proof (vocabulary_priority_unique v p1 p2 t2 Hin1 Hin2). lia. }
  assert (Hlen := two_qualifying_tags v row p1 p2 t1 t2 Hin1 Hin2 Hne Hmin
                    ltac:(by rewrite <- Hcount)).
  assert (Hfst : (top_tags v row).1 = Some t1).
  { apply (leader_is_first v row p1 t1 Hin1 Hmin Hlen).
    intros p t Hin Ht. destruct (decide (t = t2)) as [-> | Ht2].
    - right. split; [done |].
      by rewrite (vocabulary_priority_unique v p p2 t2 Hin Hin2).
    - left. by apply (Hrest p). }
  destruct (top_tags_selects v row Hlen)
    as (c1 & c2 & Htop & Hc1 & Hc2 & Hne12 & _ & Hsnd).
  rewrite Htop in Hfst. simpl in Hfst. injection Hfst as Hc1t.
  rewrite Htop, Hc1t. f_equal. f_equal.
  assert (Hb : (tagCount row t2, p2, t2) ∈ qualifying row (tagsAndTieBreakOrder v)).
  { apply elem_of_qualifying. exists p2, t2. by rewrite <- Hcount. }
  assert (Hbc : (tagCount row t2, p2, t2) ≠ c1).
  { intros <-. simpl in Hc1t. done. }
  pose proof (Hsnd _ Hb Hbc) as Hrank.
  apply elem_of_qualifying in Hc2 as (p & t & Hin & -> & _).
  simpl in *. destruct (decide (t = t2)) as [| Ht2]; [done |].
  assert (Ht1 : t ≠ t1) by congruence.
  pose proof (Hrest p t Hin Ht1 Ht2).
  unfold ranks_before, count_of, priority_of in Hrank; simpl in Hrank; lia.
Qed.

(** The same, said of the tags of the vocabulary and their counts. *)
Lemma top_two_tags (v : Vocabulary) (row : gmap string Z) :
  minTagsNeededForStatus
    ≤ Z.of_nat (length (filter (λ pt : Z * string,
                                  minRatingsToGetTag ≤ tagCount row pt.2)
                               (tagsAndTieBreakOrder v))) →
  ∃ p1 t1 p2 t2,
    top_tags v row = (Some t1, Some t2)
    ∧ (p1, t1) ∈ tagsAndTieBreakOrder v ∧ (p2, t2) ∈ tagsAndTieBreakOrder v
    ∧ t1 ≠ t2
    ∧ minRatingsToGetTag ≤ tagCount row t1
    ∧ minRatingsToGetTag ≤ tagCount row t2
    ∧ (∀ p t, (p, t) ∈ tagsAndTieBreakOrder v →
              minRatingsToGetTag ≤ tagCount row t →
              tagCount row t < tagCount row t1
              ∨ (tagCount row t = tagCount row t1 ∧ p ≤ p1))
    ∧ (∀ p t, (p, t) ∈ tagsAndTieBreakOrder v →
              minRatingsToGetTag ≤ tagCount row t → t ≠ t1 →
              tagCount row t < tagCount row t2
              ∨ (tagCount row t = tagCount row t2 ∧ p ≤ p2)).
Proof.
  rewrite <- length_qualifying. intros Hlen.
  destruct (top_tags_selects v row Hlen)
    as (c1 & c2 & Htop & Hc1 & Hc2 & Hne & Hfst & Hsnd).
  apply elem_of_qualifying in Hc1 as (p1 & t1 & Hin1 & -> & Hm1).
  apply elem_of_qualifying in Hc2 as (p2 & t2 & Hin2 & -> & Hm2).
  exists p1, t1, p2, t2. simpl in *.
  split_and!; try done.
  - intros p t Hin Hm.
    assert (Hc : (tagCount row t, p, t) ∈ qualifying row (tagsAndTieBreakOrder v)).
    { apply elem_of_qualifying. by exists p, t. }
    apply Hfst in Hc. unfold ranks_before, count_of, priority_of in Hc.
    simpl in Hc. lia.
  - intros p t Hin Hm Ht.
    assert (Hc : (tagCount row t, p, t) ∈ qualifying row (tagsAndTieBreakOrder v)).
    { apply elem_of_qualifying. by exists p, t. }
    apply Hsnd in Hc; [| by intros [=]].
    unfold ranks_before, count_of, priority_of in Hc. simpl in Hc. lia.
Qed.

Lemma notHelpful_outdated_in : (12, notHelpfulOutdatedTagKey) ∈ tagsAndTieBreakOrder NotHelpful.
Proof. apply (bool_decide_unpack _). vm_compute. exact I. Qed.

Lemma notHelpful_other_in : (0, notHelpfulOtherTagKey) ∈ tagsAndTieBreakOrder NotHelpful.
Proof. apply (bool_decide_unpack _). vm_compute. exact I. Qed.

Lemma notHelpful_priority_below_12 (p : Z) (t : string) :
  (p, t) ∈ tagsAndTieBreakOrder NotHelpful → t ≠ notHelpfulOutdatedTagKey → p < 12.
Proof.
  intros Hin Hne. simpl in Hin. unfold notHelpfulTagsAndTieBreakOrder in Hin.
  rewrite !elem_of_cons, elem_of_nil in Hin.
  destruct Hin as [H|[H|[H|[H|[H|[H|[H|[H|[H|[H|[H|[H|[H|[]]]]]]]]]]]]]];
    injection H as -> ->; first [lia | done].
Qed.


(** C4: the selection is a function of the vote counts of the vocabulary's
    tags: two rows with the same counts give the same (firstTag, secondTag).
    When enough tags qualify both slots are filled, the first by the
    qualifying tag that no qualifying tag outranks by (count, priority), the
    second by the next one. Of two qualifying tags with equal counts the one
    of higher priority is selected before the other: the lower one is never
    first and is second only behind the higher one, the higher one is first
    when no other tag outranks it, and the two fill the slots in that order
    when every other tag has fewer votes. notHelpfulOutdated has priority
    12, the highest of its vocabulary, notHelpfulOther priority 0, and at
    equal counts notHelpfulOutdated is selected before notHelpfulOther. *)
Theorem tag_selection_is_deterministic :
  (∀ v (row row' : gmap string Z),
     (∀ p t, (p, t) ∈ tagsAndTieBreakOrder v → tagCount row t = tagCount row' t) →
     top_tags v row = top_tags v row')
  ∧ (∀ v (row : gmap string Z),
       minTagsNeededForStatus
         ≤ Z.of_nat (length (filter (λ pt : Z * string,
                                       minRatingsToGetTag ≤ tagCount row pt.2)
                                    (tagsAndTieBreakOrder v))) →
       ∃ p1 t1 p2 t2,
         top_tags v row = (Some t1, Some t2)
         ∧ (p1, t1) ∈ tagsAndTieBreakOrder v ∧ (p2, t2) ∈ tagsAndTieBreakOrder v
         ∧ t1 ≠ t2
         ∧ minRatingsToGetTag ≤ tagCount row t1
         ∧ minRatingsToGetTag ≤ tagCount row t2
         ∧ (∀ p t, (p, t) ∈ tagsAndTieBreakOrder v →
                   minRatingsToGetTag ≤ tagCount row t →
                   tagCount row t < tagCount row t1
                   ∨ (tagCount row t = tagCount row t1 ∧ p ≤ p1))
         ∧ (∀ p t, (p, t) ∈ tagsAndTieBreakOrder v →
                   minRatingsToGetTag ≤ tagCount row t → t ≠ t1 →
                   tagCount row t < tagCount row t2
                   ∨ (tagCount row t = tagCount row t2 ∧ p ≤ p2)))
  ∧ (∀ v (row : gmap string Z) p1 t1 p2 t2,
       (p1, t1) ∈ tagsAndTieBreakOrder v → (p2, t2) ∈ tagsAndTieBreakOrder v →
       tagCount row t1 = tagCount row t2 →
       minRatingsToGetTag ≤ tagCount row t1 →
       p2 < p1 →
       (top_tags v row).1 ≠ Some t2
       ∧ ((top_tags v row).2 = Some t2 → (top_tags v row).1 = Some t1)
       ∧ ((∀ p t, (p, t) ∈ tagsAndTieBreakOrder v → t ≠ t1 →
                  tagCount row t < tagCount row t1
                  ∨ (tagCount row t = tagCount row t1 ∧ p < p1)) →
          (top_tags v row).1 = Some t1)
       ∧ ((∀ p t, (p, t) ∈ tagsAndTieBreakOrder v → t ≠ t1 → t ≠ t2 →
                  tagCount row t < tagCount row t1) →
          top_tags v row = (Some t1, Some t2)))
  ∧ notHelpfulTagsTiebreakMapping !! notHelpfulOutdatedTagKey = Some 12
  ∧ notHelpfulTagsTiebreakMapping !! notHelpfulOtherTagKey = Some 0
  ∧ Forall (λ pt : Z * string, pt.1 ≤ 12) notHelpfulTagsAndTieBreakOrder
  ∧ last notHelpfulTagsTiebreakOrder = Some notHelpfulOutdatedTagKey
  ∧ (∀ row : gmap string Z,
       tagCount row notHelpfulOutdatedTagKey = tagCount row notHelpfulOtherTagKey →
       minRatingsToGetTag ≤ tagCount row notHelpfulOutdatedTagKey →
       (top_tags NotHelpful row).1 ≠ Some notHelpfulOtherTagKey
       ∧ ((top_tags NotHelpful row).2 = Some notHelpfulOtherTagKey →
          (top_tags NotHelpful row).1 = Some notHelpfulOutdatedTagKey)
       ∧ ((∀ t, tagCount row t ≤ tagCount row notHelpfulOutdatedTagKey) →
          (top_tags NotHelpful row).1 = Some notHelpfulOutdatedTagKey)
       ∧ ((∀ p t, (p, t) ∈ notHelpfulTagsAndTieBreakOrder →
                  t ≠ notHelpfulOutdatedTagKey → t ≠ notHelpfulOtherTagKey →
                  tagCount row t < tagCount row notHelpfulOutdatedTagKey) →
          top_tags NotHelpful row
          = (Some notHelpfulOutdatedTagKey, Some notHelpfulOtherTagKey))).
Proof.
  assert (Htie : ∀ v (row : gmap string Z) p1 t1 p2 t2,
       (p1, t1) ∈ tagsAndTieBreakOrder v → (p2, t2) ∈ tagsAndTieBreakOrder v →
       tagCount row t1 = tagCount row t2 →
       minRatingsToGetTag ≤ tagCount row t1 →
       p2 < p1 →
       (top_tags v row).1 ≠ Some t2
       ∧ ((top_tags v row).2 = Some t2 → (top_tags v row).1 = Some t1)
       ∧ ((∀ p t, (p, t) ∈ tagsAndTieBreakOrder v → t ≠ t1 →
                  tagCount row t < tagCount row t1
                  ∨ (tagCount row t = tagCount row t1 ∧ p < p1)) →
          (top_tags v row).1 = Some t1)
       ∧ ((∀ p t, (p, t) ∈ tagsAndTieBreakOrder v → t ≠ t1 → t ≠ t2 →
                  tagCount row t < tagCount row t1) →
          top_tags v row = (Some t1, Some t2))).
  { intros v row p1 t1 p2 t2 Hin1 Hin2 Hcount Hmin Hprio.
    destruct (tie_goes_to_higher_priority v row p1 p2 t1 t2 Hin1 Hin2 Hcount Hmin Hprio)
      as [Hn1 Hn2].
    split_and!; [done | done | |].
    - assert (Hne : t1 ≠ t2).
      { intros ->. pose proof (vocabulary_priority_unique v p1 p2 t2 Hin1 Hin2). lia. }
      apply (leader_is_first v row p1 t1 Hin1 Hmin).
      apply (two_qualifying_tags v row p1 p2 t1 t2); try done. by rewrite <- Hcount.
    - by apply (tied_leaders_are_selected v row p1 p2). }
  split_and!; try reflexivity.
  - intros v row row' Hsame. unfold top_tags, ranked, qualifying.
    by rewrite (counted_ext row row' _ Hsame).
  - apply top_two_tags.
  - done.
  - unfold notHelpfulTagsAndTieBreakOrder.
    repeat apply Forall_cons_2; try apply Forall_nil_2; simpl; lia.
  - intros row Hcount Hmin.
    destruct (Htie NotHelpful row 12 notHelpfulOutdatedTagKey 0 notHelpfulOtherTagKey
                notHelpful_outdated_in notHelpful_other_in Hcount Hmin ltac:(lia))
      as (H1 & H2 & H3 & H4).
    split_and!; [done | done | | done].
    intros Hmax. apply H3. intros p t Hin Hne.
    pose proof (notHelpful_priority_below_12 p t Hin Hne).
    pose proof (Hmax t). lia.
Qed.

Lemma tag_selection_is_deterministic_witness :
  top_tags NotHelpful {[ "notHelpfulOutdated" := 3; "notHelpfulOther" := 3;
                         "notHelpfulIncorrect" := 1 ]}
  = top_tags NotHelpful {[ "notHelpfulOutdated" := 3; "notHelpfulOther" := 3;
                           "notHelpfulIncorrect" := 1; "helpfulClear" := 5 ]}
  ∧ top_tags NotHelpful {[ "notHelpfulOutdated" := 3; "notHelpfulOther" := 3;
                           "notHelpfulIncorrect" := 1 ]}
    = (Some "notHelpfulOutdated", Some "notHelpfulOther")
  ∧ (top_tags NotHelpful {[ "notHelpfulOutdated" := 3; "notHelpfulOther" := 3;
                            "notHelpfulIncorrect" := 4 ]}).1
    ≠ Some "notHelpfulOther".
Proof.
  destruct tag_selection_is_deterministic as (Hdet & _ & _ & _ & _ & _ & _ & Htie).
  split_and!.
  - apply Hdet. intros p t Hin.
    unfold tagsAndTieBreakOrder, notHelpfulTagsAndTieBreakOrder in Hin.
    rewrite !elem_of_cons, elem_of_nil in Hin.
    destruct Hin as [H|[H|[H|[H|[H|[H|[H|[H|[H|[H|[H|[H|[H|[]]]]]]]]]]]]]];
      injection H as -> ->; reflexivity.
  - apply Htie; [reflexivity | vm_compute; discriminate |].
    intros p t Hin Hne1 Hne2.
    unfold notHelpfulTagsAndTieBreakOrder in Hin.
    rewrite !elem_of_cons, elem_of_nil in Hin.
    destruct Hin as [H|[H|[H|[H|[H|[H|[H|[H|[H|[H|[H|[H|[H|[]]]]]]]]]]]]]];
      injection H as -> ->; first [done | reflexivity].
  - apply Htie; [reflexivity | vm_compute; discriminate].
Defined.


Lemma no_votes_no_tags (v : Vocabulary) (row : gmap string Z) :
  (∀ t, tagCount row t = 0) → top_tags v row = (None, None).
Proof.
  intros Hzero. apply top_tags_too_few.
  destruct (qualifying row (tagsAndTieBreakOrder v)) as [| c l] eqn:Hq; [done |].
  assert (Hc : c ∈ qualifying row (tagsAndTieBreakOrder v)) by (rewrite Hq; left).
  apply elem_of_qualifying in Hc as (p & t & _ & _ & Hmin).
  rewrite Hzero in Hmin. unfold minRatingsToGetTag in Hmin. lia.
Qed.

(** C5: a tag is selected only if it has at least 2 votes
    ([minRatingsToGetTag]) and at least 2 tags ([minTagsNeededForStatus]) of
    the note have that many; when that many tags have enough votes two of
    them are selected, and when fewer have no tag is; a note without ratings
    gets no tag, and the selection still returns, with both slots empty. *)
Theorem tag_eligibility :
  minRatingsToGetTag = 2 ∧ minTagsNeededForStatus = 2
  ∧ (∀ v (row : gmap string Z) t,
       (top_tags v row).1 = Some t ∨ (top_tags v row).2 = Some t →
       (∃ p, (p, t) ∈ tagsAndTieBreakOrder v)
       ∧ minRatingsToGetTag ≤ tagCount row t
       ∧ minTagsNeededForStatus
         ≤ Z.of_nat (length (filter (λ pt : Z * string,
                                       minRatingsToGetTag ≤ tagCount row pt.2)
                                    (tagsAndTieBreakOrder v))))
  ∧ (∀ v (row : gmap string Z),
       minTagsNeededForStatus
         ≤ Z.of_nat (length (filter (λ pt : Z * string,
                                       minRatingsToGetTag ≤ tagCount row pt.2)
                                    (tagsAndTieBreakOrder v))) →
       ∃ t1 t2, top_tags v row = (Some t1, Some t2) ∧ t1 ≠ t2
                ∧ minRatingsToGetTag ≤ tagCount row t1
                ∧ minRatingsToGetTag ≤ tagCount row t2)
  ∧ (∀ v (row : gmap string Z),
       Z.of_nat (length (filter (λ pt : Z * string,
                                   minRatingsToGetTag ≤ tagCount row pt.2)
                                (tagsAndTieBreakOrder v)))
         < minTagsNeededForStatus →
       top_tags v row = (None, None))
  ∧ (∀ v (row : gmap string Z),
       (∀ t, tagCount row t = 0) → top_tags v row = (None, None))
  ∧ (∀ v, top_tags v ∅ = (None, None)).
Proof.
  split_and!; try reflexivity.
  - intros v row t Hsel.
    assert (Hc : minTagsNeededForStatus
                 ≤ Z.of_nat (length (qualifying row (tagsAndTieBreakOrder v)))
                 ∧ ∃ c, c ∈ ranked row (tagsAndTieBreakOrder v) ∧ tag_of c = t).
    { destruct Hsel as [H | H];
        [apply top_tags_first in H | apply top_tags_second in H];
        destruct H as [Hlen (c & Hc & Htag)]; (split; [done |]); exists c;
        (split; [by eapply list_elem_of_lookup_2 | done]). }
    destruct Hc as [Hlen (c & Hc & Htag)].
    apply elem_of_ranked, elem_of_qualifying in Hc as (p & t' & Hin & -> & Hmin).
    simpl in Htag. subst t'. rewrite <- length_qualifying.
    split_and!; [by exists p | done | done].
  - intros v row Hlen.
    destruct (top_two_tags v row Hlen)
      as (p1 & t1 & p2 & t2 & Htop & _ & _ & Hne & Hm1 & Hm2 & _).
    by exists t1, t2.
  - intros v row Hlen. apply top_tags_too_few. by rewrite length_qualifying.
  - by apply no_votes_no_tags.
  - intros v. by apply no_votes_no_tags.
Qed.

Lemma tag_eligibility_witness :
  ((∃ p, (p, "notHelpfulOutdated") ∈ tagsAndTieBreakOrder NotHelpful)
   ∧ minRatingsToGetTag
     ≤ tagCount {[ "notHelpfulOutdated" := 2; "notHelpfulOther" := 2 ]}
                "notHelpfulOutdated"
   ∧ minTagsNeededForStatus
     ≤ Z.of_nat (length (filter
         (λ pt : Z * string,
            minRatingsToGetTag
            ≤ tagCount {[ "notHelpfulOutdated" := 2; "notHelpfulOther" := 2 ]} pt.2)
         (tagsAndTieBreakOrder NotHelpful))))
  ∧ (∃ t1 t2,
       top_tags NotHelpful {[ "notHelpfulOutdated" := 2; "notHelpfulOther" := 2 ]}
       = (Some t1, Some t2) ∧ t1 ≠ t2
       ∧ minRatingsToGetTag
         ≤ tagCount {[ "notHelpfulOutdated" := 2; "notHelpfulOther" := 2 ]} t1
       ∧ minRatingsToGetTag
         ≤ tagCount {[ "notHelpfulOutdated" := 2; "notHelpfulOther" := 2 ]} t2)
  ∧ top_tags NotHelpful {[ "notHelpfulOutdated" := 5; "notHelpfulOther" := 1 ]}
    = (None, None)
  ∧ top_tags Helpful {[ "helpfulClear" := 0; "helpfulInformative" := 0 ]}
    = (None, None).
Proof.
  destruct tag_eligibility as (_ & _ & Helig & Hsel & Hfew & Hzero & _).
  split; [| split; [| split]].
  - apply (Helig NotHelpful {[ "notHelpfulOutdated" := 2; "notHelpfulOther" := 2 ]}
                   "notHelpfulOutdated").
    left. reflexivity.
  - apply (Hsel NotHelpful {[ "notHelpfulOutdated" := 2; "notHelpfulOther" := 2 ]}).
    vm_compute. discriminate.
  - apply (Hfew NotHelpful {[ "notHelpfulOutdated" := 5; "notHelpfulOther" := 1 ]}).
    vm_compute. reflexivity.
  - apply Hzero. intros t. unfold tagCount.
    destruct (decide (t = "helpfulClear")) as [-> | H1]; [reflexivity |].
    destruct (decide (t = "helpfulInformative")) as [-> | H2]; [reflexivity |].
    rewrite lookup_insert_ne by done. by rewrite lookup_singleton_ne.
Defined.

End tag_selector.

(** * Further properties of the module *)

(** ** Python built-ins *)

Section python_builtins.

Lemma str_inj (i j : Z) : Py.str i = Py.str j → i = j.
Proof.
  unfold Py.str. intros Heq.
  assert (Hparse : ∀ z, NilZero.int_of_string (NilZero.string_of_int (Z.to_int z))
                        = Some (Z.to_int z)).
  { intros z. apply NilZero.isi; destruct z as [| p | p]; simpl; try discriminate;
      intros [= Hp]; by apply (Unsigned.to_uint_nonnil p). }
  pose proof (Hparse i) as Hi. rewrite Heq, Hparse in Hi.
  injection Hi as Hi. by rewrite <- (DecimalZ.of_to i), <- (DecimalZ.of_to j), Hi.
Qed.

Lemma append_inj_r (p s1 s2 : string) : p ++ s1 = p ++ s2 → s1 = s2.
Proof. induction p as [| a p IH]; simpl; [done |]. intros [= H]. by apply IH. Qed.

Lemma dict_of_snoc {V} (l : list (string * V)) (k : string) (v : V) :
  Py.dict_of (l ++ [(k, v)]) = <[k := v]> (Py.dict_of l).
Proof. unfold Py.dict_of. by rewrite foldl_snoc. Qed.

(** A key that no pair has is missing from the dictionary. *)
Lemma dict_of_lookup_None {V} (l : list (string * V)) (k : string) :
  Py.dict_of l !! k = None ↔ k ∉ l.*1.
Proof.
  induction l as [| [k' v'] l IH] using rev_ind.
  - split; [intros _; apply not_elem_of_nil | done].
  - rewrite dict_of_snoc, fmap_app, not_elem_of_app. simpl.
    rewrite lookup_insert_None, IH, not_elem_of_cons.
    split; [intros [? ?] | intros (? & ? & _)]; split_and!; try done.
    apply not_elem_of_nil.
Qed.

(** When no key is repeated, the dictionary holds exactly the pairs. *)
Lemma dict_of_lookup_Some {V} (l : list (string * V)) (k : string) (v : V) :
  NoDup l.*1 → Py.dict_of l !! k = Some v ↔ (k, v) ∈ l.
Proof.
  induction l as [| [k' v'] l IH] using rev_ind; intros Hnd.
  - split; [done | by intros ?%elem_of_nil].
  - rewrite fmap_app in Hnd. apply NoDup_app in Hnd as (Hnd & Hfresh & _).
    rewrite dict_of_snoc, elem_of_app, list_elem_of_singleton.
    destruct (decide (k' = k)) as [-> | Hne].
    + rewrite lookup_insert_eq. split.
      * intros [= ->]. by right.
      * intros [Hin | [= ->]]; [| done].
        exfalso. apply (Hfresh k); [| simpl; left].
        apply list_elem_of_fmap. by exists (k, v).
    + rewrite lookup_insert_ne by done. rewrite (IH Hnd).
      split; [by left | intros [Hin | [= -> _]]; done].
Qed.

Lemma elem_of_enumerate_from {A} (l : list A) (k i : Z) (x : A) :
  (i, x) ∈ Py.enumerate_from k l ↔ k ≤ i ∧ l !! Z.to_nat (i - k) = Some x.
Proof.
  revert k. induction l as [| y l IH]; intros k; simpl.
  - split; [by intros ?%elem_of_nil | by intros [_ ?]].
  - rewrite elem_of_cons, IH. split.
    + intros [[= -> ->] | [Hk Hl]].
      * split; [lia |]. by replace (k - k) with 0 by lia.
      * split; [lia |].
        replace (Z.to_nat (i - k)) with (S (Z.to_nat (i - (k + 1)))) by lia. done.
    + intros [Hk Hl]. destruct (decide (i = k)) as [-> | Hne].
      * left. replace (k - k) with 0 in Hl by lia. simpl in Hl. by injection Hl as ->.
      * right. split; [lia |].
        replace (Z.to_nat (i - k)) with (S (Z.to_nat (i - (k + 1)))) in Hl by lia. done.
Qed.

Lemma enumerate_from_keys {A} (l : list A) (k : Z) :
  (Py.enumerate_from k l).*1 = seqZ k (Z.of_nat (length l)).
Proof.
  revert k. induction l as [| y l IH]; intros k; [done |].
  rewrite length_cons, Nat2Z.inj_succ, seqZ_cons by lia. simpl.
  rewrite IH. f_equal. f_equal. lia.
Qed.

End python_builtins.

Section substrings.

Lemma startswith_spec (p s : string) :
  Py.startswith p s = true ↔ ∃ r, s = p ++ r.
Proof.
  revert s. induction p as [| a p IH]; intros s.
  - split; [by exists s | by destruct s].
  - destruct s as [| b s]; simpl.
    + split; [done | by intros [r [=]]].
    + destruct (decide (a = b)) as [-> | Hne].
      * rewrite IH. split.
        -- intros [r ->]. by exists r.
        -- intros [r [= ->]]. by exists r.
      * split; [done | intros [r [= ? _]]; done].
Qed.

(** [Py.contains] is the substring test. *)
Lemma contains_spec (needle s : string) :
  Py.contains needle s = true ↔ ∃ a b, s = a ++ needle ++ b.
Proof.
  induction s as [| c s IH].
  - simpl. rewrite orb_false_r, startswith_spec. split.
    + intros [r Hr]. by exists "", r.
    + intros (a & b & Hab). destruct a; [by exists b | done].
  - cbn [Py.contains]. rewrite orb_true_iff, startswith_spec, IH. split.
    + intros [[r Hr] | (a & b & ->)]; [by exists "", r |].
      by exists (String c a), b.
    + intros (a & b & Hab). destruct a as [| c' a].
      * left. by exists b.
      * right. injection Hab as _ ->. by exists a, b.
Qed.

End substrings.

(** ** Factor keys *)

Section factor_keys.

(** X1: the key of a factor determines its index: two indices give the same
    note factor key, or the same rater factor key, only when they are equal. *)
Theorem factor_key_injective (i j : Z) :
  (note_factor_key i = note_factor_key j ↔ i = j)
  ∧ (rater_factor_key i = rater_factor_key j ↔ i = j).
Proof.
  unfold note_factor_key, rater_factor_key.
  split; (split; [intros Heq | by intros ->]);
    by apply append_inj_r, str_inj in Heq.
Qed.

(** X2: a note factor key is never a rater factor key, and neither is one of
    the intercept or reputation keys of the internal scoring columns. *)
Theorem factor_keys_are_apart (i j : Z) :
  note_factor_key i ≠ rater_factor_key j
  ∧ (note_factor_key i ∉ [internalNoteInterceptKey; internalRaterInterceptKey;
                          internalRatingStatusKey; internalActiveRulesKey;
                          internalRaterReputationKey])
  ∧ (rater_factor_key j ∉ [internalNoteInterceptKey; internalRaterInterceptKey;
                           internalRatingStatusKey; internalActiveRulesKey;
                           internalRaterReputationKey]).
Proof.
  unfold note_factor_key, rater_factor_key.
  split_and!.
  - intros Heq. simpl in Heq. discriminate.
  - rewrite !not_elem_of_cons. split_and!; try apply not_elem_of_nil;
      intros Heq; simpl in Heq; discriminate.
  - rewrite !not_elem_of_cons. split_and!; try apply not_elem_of_nil;
      intros Heq; simpl in Heq; discriminate.
Qed.

End factor_keys.

(** ** Tag orders and tag dictionaries *)

Section tag_tables.

Lemma sorted_Permutation (l : list (Z * string)) : Py.sorted l ≡ₚ l.
Proof. apply merge_sort_Permutation. Qed.

(** In a table whose priorities, in ascending order, are 0, 1, 2, ..., the
    tag at a position of the sorted table is the tag of that priority. *)
Lemma sorted_position (l : list (Z * string)) (k : nat) (t : string) :
  (Py.sorted l).*1 = seqZ 0 (Z.of_nat (length l)) →
  (Py.sorted l).*2 !! k = Some t ↔ (Z.of_nat k, t) ∈ l.
Proof.
  intros Hprio. rewrite <- (sorted_Permutation l) at 2.
  assert (Hfst : ∀ (i : nat) p t', Py.sorted l !! i = Some (p, t') → p = Z.of_nat i).
  { intros i p t' Hi.
    assert (Hp : (Py.sorted l).*1 !! i = Some p) by (by rewrite list_lookup_fmap, Hi).
    rewrite Hprio in Hp. apply lookup_seqZ in Hp as [-> _]. lia. }
  split.
  - rewrite list_lookup_fmap. intros Hk.
    destruct (Py.sorted l !! k) as [[p t'] |] eqn:Hl; [| done].
    injection Hk as ->. rewrite (Hfst k p t Hl) in Hl.
    by eapply list_elem_of_lookup_2.
  - intros [i Hi]%list_elem_of_lookup.
    pose proof (Hfst i _ _ Hi) as Hik. apply Nat2Z.inj in Hik as ->.
    by rewrite list_lookup_fmap, Hi.
Qed.

(** X3: in both vocabularies the position of a tag in the tie-break order is
    its tie-break priority: the list at position n holds the tag whose entry
    in the table has priority n, and nothing else. *)
Theorem tiebreak_order_position_is_priority (n : nat) (t : string) :
  (helpfulTagsTiebreakOrder !! n = Some t
     ↔ (Z.of_nat n, t) ∈ helpfulTagsAndTieBreakOrder)
  ∧ (notHelpfulTagsTiebreakOrder !! n = Some t
     ↔ (Z.of_nat n, t) ∈ notHelpfulTagsAndTieBreakOrder).
Proof. split; by apply sorted_position. Qed.

Lemma notHelpful_mapping_keys_NoDup :
  NoDup (map (λ pt : Z * string, (pt.2, pt.1)) notHelpfulTagsAndTieBreakOrder).*1.
Proof.
  replace ((map (λ pt : Z * string, (pt.2, pt.1)) notHelpfulTagsAndTieBreakOrder).*1)
    with (notHelpfulTagsAndTieBreakOrder.*2) by reflexivity.
  apply notHelpful_tags_NoDup.
Qed.

(** X4: the tie-break dictionary of the not-helpful tags gives a tag the
    priority of its entry in the table, has no entry for a string that is not
    a not-helpful tag, and agrees with the tie-break order: the tag at
    position n of the order is the tag the dictionary gives priority n. *)
Theorem notHelpful_tiebreak_mapping (t : string) :
  (∀ p, notHelpfulTagsTiebreakMapping !! t = Some p
        ↔ (p, t) ∈ notHelpfulTagsAndTieBreakOrder)
  ∧ (notHelpfulTagsTiebreakMapping !! t = None ↔ t ∉ notHelpfulTagsTSVOrder)
  ∧ (∀ n : nat, notHelpfulTagsTiebreakOrder !! n = Some t
                ↔ notHelpfulTagsTiebreakMapping !! t = Some (Z.of_nat n)).
Proof.
  assert (Htable : ∀ p, notHelpfulTagsTiebreakMapping !! t = Some p
                        ↔ (p, t) ∈ notHelpfulTagsAndTieBreakOrder).
  { intros p. unfold notHelpfulTagsTiebreakMapping.
    rewrite (dict_of_lookup_Some _ _ _ notHelpful_mapping_keys_NoDup).
    rewrite list_elem_of_fmap. split.
    - intros [[p' t'] [[= -> ->] Hin]]. done.
    - intros Hin. by exists (p, t). }
  split_and!; [done | |].
  - unfold notHelpfulTagsTiebreakMapping. rewrite dict_of_lookup_None. done.
  - intros n. rewrite Htable. by apply sorted_position.
Qed.

Lemma enumerate_tags (l : list (Z * string)) :
  (map (λ it : Z * (Z * string), (it.2.2, it.1)) (Py.enumerate l)).*1 = l.*2.
Proof.
  unfold Py.enumerate. generalize 0. induction l as [| x l IH]; intros k; [done |].
  simpl. f_equal. apply IH.
Qed.

Lemma enum_mapping_index (t : string) (i : Z) :
  notHelpfulTagsEnumMapping !! t = Some i
  ↔ 0 ≤ i ∧ notHelpfulTagsTSVOrder !! Z.to_nat i = Some t.
Proof.
  unfold notHelpfulTagsEnumMapping.
  rewrite dict_of_lookup_Some
    by (rewrite enumerate_tags; apply notHelpful_tags_NoDup).
  rewrite list_elem_of_fmap. unfold notHelpfulTagsTSVOrder, Py.enumerate. split.
  - intros [[i' [p t']] [[= -> ->] Hin]].
    apply elem_of_enumerate_from in Hin as [Hi Hl]. split; [done |].
    rewrite Z.sub_0_r in Hl. change (map snd ?l) with (l.*2).
    by rewrite list_lookup_fmap, Hl.
  - intros [Hi Hl]. change (map snd ?l) with (l.*2) in Hl.
    rewrite list_lookup_fmap in Hl.
    destruct (notHelpfulTagsAndTieBreakOrder !! Z.to_nat i) as [[p t'] |] eqn:Hl';
      [| done].
    injection Hl as ->. exists (i, (p, t)). split; [done |].
    apply elem_of_enumerate_from. by rewrite Z.sub_0_r.
Qed.

(** X5: the enum dictionary of the not-helpful tags gives a tag its index in
    the TSV order, and only that: the entry of a tag is i exactly when the
    tag stands at index i of the TSV order, and a string that is not a
    not-helpful tag has no entry. *)
Theorem notHelpful_enum_mapping (t : string) :
  (∀ i, notHelpfulTagsEnumMapping !! t = Some i
        ↔ 0 ≤ i ∧ notHelpfulTagsTSVOrder !! Z.to_nat i = Some t)
  ∧ (notHelpfulTagsEnumMapping !! t = None ↔ t ∉ notHelpfulTagsTSVOrder).
Proof.
  split; [apply enum_mapping_index |].
  unfold notHelpfulTagsEnumMapping.
  rewrite dict_of_lookup_None, enumerate_tags. done.
Qed.

End tag_tables.

(** ** Schemas *)

Section schemas.

Lemma append_assoc (a b c : string) : (a ++ b) ++ c = a ++ (b ++ c).
Proof.
  induction a as [| x a IH]; [done |].
  change (String x ((a ++ b) ++ c) = String x (a ++ (b ++ c))). by rewrite IH.
Qed.

(** X6: the adjusted and the adjusted-ratio columns follow the not-helpful
    tags index by index: at every index the adjusted column is the tag
    followed by "Adjusted" and the ratio column the tag followed by
    "AdjustedRatio"; and no name is shared among the tags, the adjusted
    columns and the ratio columns. *)
Theorem adjusted_columns_follow_tags (i : nat) :
  notHelpfulTagsAdjustedColumns !! i
    = (λ tag, tag ++ "Adjusted") <$> notHelpfulTagsTSVOrder !! i
  ∧ notHelpfulTagsAdjustedRatioColumns !! i
    = (λ tag, tag ++ "AdjustedRatio") <$> notHelpfulTagsTSVOrder !! i
  ∧ length notHelpfulTagsAdjustedColumns = length notHelpfulTagsTSVOrder
  ∧ length notHelpfulTagsAdjustedRatioColumns = length notHelpfulTagsTSVOrder
  ∧ NoDup (notHelpfulTagsTSVOrder ++ notHelpfulTagsAdjustedColumns
             ++ notHelpfulTagsAdjustedRatioColumns)%list.
Proof.
  unfold notHelpfulTagsAdjustedRatioColumns, notHelpfulTagsAdjustedColumns.
  change (map ?f ?l) with (f <$> l).
  split_and!.
  - by rewrite list_lookup_fmap.
  - rewrite !list_lookup_fmap.
    destruct (notHelpfulTagsTSVOrder !! i) as [tag |]; [| done].
    simpl. f_equal. apply append_assoc.
  - by rewrite length_fmap.
  - by rewrite !length_fmap.
  - apply (bool_decide_unpack _). vm_compute. exact I.
Qed.

Lemma schema_mapping {V} (schema : list (string * V)) (col : string) (ty : V) :
  NoDup schema.*1 → Py.dict_of schema !! col = Some ty ↔ (col, ty) ∈ schema.
Proof. apply dict_of_lookup_Some. Qed.

Ltac schema_NoDup := apply (bool_decide_unpack _); vm_compute; exact I.

Lemma noteTSV_NoDup : NoDup noteTSVColumns.
Proof. schema_NoDup. Qed.
Lemma ratingTSV_NoDup : NoDup ratingTSVColumns.
Proof. schema_NoDup. Qed.
Lemma userEnrollmentTSV_NoDup : NoDup userEnrollmentTSVColumns.
Proof. schema_NoDup. Qed.
Lemma noteParameterUncertaintyTSV_NoDup : NoDup noteParameterUncertaintyTSVColumns.
Proof. schema_NoDup. Qed.
Lemma auxiliaryScoredNotesTSV_NoDup : NoDup auxiliaryScoredNotesTSVColumns.
Proof. schema_NoDup. Qed.
Lemma prescoringNoteModelOutputTSV_NoDup : NoDup prescoringNoteModelOutputTSVColumns.
Proof. schema_NoDup. Qed.
Lemma noteModelOutputTSV_NoDup : NoDup noteModelOutputTSVColumns.
Proof. schema_NoDup. Qed.
Lemma prescoringRaterModelOutputTSV_NoDup : NoDup prescoringRaterModelOutputTSVColumns.
Proof. schema_NoDup. Qed.
Lemma raterModelOutputTSV_NoDup : NoDup raterModelOutputTSVColumns.
Proof. schema_NoDup. Qed.
Lemma noteStatusChangesTSV_NoDup : NoDup noteStatusChangesTSVColumns.
Proof. schema_NoDup. Qed.
Lemma inputPathsTSV_NoDup : NoDup inputPathsTSVColumns.
Proof. schema_NoDup. Qed.

(** X7: no schema names a column twice, so every type mapping holds exactly
    the (column, type) pairs of its schema: a column has the type the schema
    declares for it, and a name the schema does not have has no entry. *)
Theorem type_mappings_hold_the_schemas (col : string) :
  (∀ ty, noteTSVTypeMapping !! col = Some ty ↔ (col, ty) ∈ noteTSVColumnsAndTypes)
  ∧ (∀ ty, ratingTSVTypeMapping !! col = Some ty
           ↔ (col, ty) ∈ ratingTSVColumnsAndTypes)
  ∧ (∀ ty, noteStatusHistoryTSVTypeMapping !! col = Some ty
           ↔ (col, ty) ∈ noteStatusHistoryTSVColumnsAndTypes)
  ∧ (∀ ty, userEnrollmentTSVTypeMapping !! col = Some ty
           ↔ (col, ty) ∈ userEnrollmentTSVColumnsAndTypes)
  ∧ (∀ ty, noteParameterUncertaintyTSVTypeMapping !! col = Some ty
           ↔ (col, ty) ∈ noteParameterUncertaintyTSVColumnsAndTypes)
  ∧ (∀ ty, auxiliaryScoredNotesTSVTypeMapping !! col = Some ty
           ↔ (col, ty) ∈ auxiliaryScoredNotesTSVColumnsAndTypes)
  ∧ (∀ ty, prescoringNoteModelOutputTSVTypeMapping !! col = Some ty
           ↔ (col, ty) ∈ prescoringNoteModelOutputTSVColumnsAndTypes)
  ∧ (∀ ty, noteModelOutputTSVTypeMapping !! col = Some ty
           ↔ (col, ty) ∈ noteModelOutputTSVColumnsAndTypes)
  ∧ (∀ ty, prescoringRaterModelOutputTSVTypeMapping !! col = Some ty
           ↔ (col, ty) ∈ prescoringRaterModelOutputTSVColumnsAndTypes)
  ∧ (∀ ty, raterModelOutputTSVTypeMapping !! col = Some ty
           ↔ (col, ty) ∈ raterModelOutputTSVColumnsAndTypes)
  ∧ (∀ ty, noteStatusChangesTSVTypeMapping !! col = Some ty
           ↔ (col, ty) ∈ noteStatusChangeTSVColumnsAndTypes)
  ∧ (∀ ty, inputPathsTSVTypeMapping !! col = Some ty
           ↔ (col, ty) ∈ inputPathsTSVColumnsAndTypes).
Proof.
  split_and!; intros ty; apply schema_mapping.
  - apply noteTSV_NoDup.
  - apply ratingTSV_NoDup.
  - apply status_history_columns_NoDup.
  - apply userEnrollmentTSV_NoDup.
  - apply noteParameterUncertaintyTSV_NoDup.
  - apply auxiliaryScoredNotesTSV_NoDup.
  - apply prescoringNoteModelOutputTSV_NoDup.
  - apply noteModelOutputTSV_NoDup.
  - apply prescoringRaterModelOutputTSV_NoDup.
  - apply raterModelOutputTSV_NoDup.
  - apply noteStatusChangesTSV_NoDup.
  - apply inputPathsTSV_NoDup.
Qed.

End schemas.

Section derived_schemas.

(** X8: every helpful and every not-helpful tag is a column of the ratings
    (a nullable 8-bit flag) and of the auxiliary scored-notes output (a
    nullable 64-bit count); for a not-helpful tag the auxiliary output also
    has the adjusted and the adjusted-ratio column of the tag, as doubles. *)
Theorem tag_columns_of_schemas (t : string) :
  (t ∈ helpfulTagsTSVOrder →
     ratingTSVTypeMapping !! t = Some pd_Int8Dtype
     ∧ auxiliaryScoredNotesTSVTypeMapping !! t = Some pd_Int64Dtype)
  ∧ (t ∈ notHelpfulTagsTSVOrder →
     ratingTSVTypeMapping !! t = Some pd_Int8Dtype
     ∧ auxiliaryScoredNotesTSVTypeMapping !! t = Some pd_Int64Dtype
     ∧ auxiliaryScoredNotesTSVTypeMapping !! (t ++ "Adjusted") = Some (Np np_double)
     ∧ auxiliaryScoredNotesTSVTypeMapping !! (t ++ "AdjustedRatio")
       = Some (Np np_double)).
Proof.
  unfold ratingTSVTypeMapping, auxiliaryScoredNotesTSVTypeMapping.
  rewrite !(schema_mapping ratingTSVColumnsAndTypes _ _ ratingTSV_NoDup).
  rewrite !(schema_mapping auxiliaryScoredNotesTSVColumnsAndTypes _ _
             auxiliaryScoredNotesTSV_NoDup).
  unfold ratingTSVColumnsAndTypes, auxiliaryScoredNotesTSVColumnsAndTypes.
  rewrite !elem_of_app.
  unfold helpfulTagBoolsAndTypesTSVOrder, helpfulTagCountsAndTypesTSVOrder,
    notHelpfulTagsAndTypesTSVOrder, notHelpfulTagCountsAndTypesTSVOrder,
    notHelpfulTagsAdjustedTSVColumnsAndTypes,
    notHelpfulTagsAdjustedRatioTSVColumnsAndTypes,
    notHelpfulTagsAdjustedRatioColumns, notHelpfulTagsAdjustedColumns.
  change (map ?f ?l) with (f <$> l).
  assert (Hflag : ∀ (ty : coltype) (l : list string),
             t ∈ l → (t, ty) ∈ (λ tag : string, (tag, ty)) <$> l).
  { intros ty l Hl. apply list_elem_of_fmap. by exists t. }
  split; intros Ht.
  - pose proof (Hflag pd_Int8Dtype _ Ht). pose proof (Hflag pd_Int64Dtype _ Ht).
    split; tauto.
  - pose proof (Hflag pd_Int8Dtype _ Ht). pose proof (Hflag pd_Int64Dtype _ Ht).
    assert ((t ++ "Adjusted", Np np_double)
              ∈ (λ tag : string, (tag, Np np_double))
                  <$> ((λ column : string, column ++ adjustedSuffix)
                         <$> notHelpfulTagsTSVOrder)).
    { apply list_elem_of_fmap. exists (t ++ "Adjusted"). split; [done |].
      apply list_elem_of_fmap. by exists t. }
    assert ((t ++ "AdjustedRatio", Np np_double)
              ∈ (λ tag : string, (tag, Np np_double))
                  <$> ((λ column : string, column ++ ratioSuffix)
                         <$> ((λ column : string, column ++ adjustedSuffix)
                                <$> notHelpfulTagsTSVOrder))).
    { apply list_elem_of_fmap. exists (t ++ "AdjustedRatio"). split; [done |].
      apply list_elem_of_fmap. exists (t ++ "Adjusted").
      split; [by rewrite append_assoc |].
      apply list_elem_of_fmap. by exists t. }
    split_and!; tauto.
Qed.

Lemma tag_columns_of_schemas_witness :
  ratingTSVTypeMapping !! "notHelpfulOutdated" = Some pd_Int8Dtype
  ∧ auxiliaryScoredNotesTSVTypeMapping !! "notHelpfulOutdated" = Some pd_Int64Dtype
  ∧ auxiliaryScoredNotesTSVTypeMapping !! "notHelpfulOutdatedAdjusted"
    = Some (Np np_double)
  ∧ auxiliaryScoredNotesTSVTypeMapping !! "notHelpfulOutdatedAdjustedRatio"
    = Some (Np np_double).
Proof.
  apply (proj2 (tag_columns_of_schemas "notHelpfulOutdated")).
  apply (bool_decide_unpack _). vm_compute. exact I.
Defined.

(** The columns the status changes leave out are those of the model output
    whose name has NoteInterceptMin or NoteInterceptMax in it. *)
Lemma elem_of_removed_cols (col : string) :
  col ∈ noteStatusChangesRemovedCols ↔
  (Py.contains "NoteInterceptMin" col = true ∨ Py.contains "NoteInterceptMax" col = true)
  ∧ col ∈ noteModelOutputTSVColumns.
Proof. unfold noteStatusChangesRemovedCols. by rewrite list_elem_of_filter. Qed.

(** X9: the deprecated columns of the note model output are found in its
    schema: the deprecated schema has exactly the columns of the deprecated
    set, each with the type double it has in the model output, and each of
    them is among the columns the status changes leave out. *)
Theorem deprecated_columns_of_model_output (col : string) :
  (col ∈ deprecatedNoteModelOutputTSVColumnsAndTypes.*1
     ↔ col ∈ deprecatedNoteModelOutputColumns)
  ∧ (∀ ty, (col, ty) ∈ deprecatedNoteModelOutputTSVColumnsAndTypes ↔
           col ∈ deprecatedNoteModelOutputColumns ∧ ty = Np np_double)
  ∧ (col ∈ deprecatedNoteModelOutputColumns ↔
       col ∈ noteStatusChangesRemovedCols ∧ Py.startswith "coverage" col = true).
Proof.
  assert (Hpairs : ∀ ty, (col, ty) ∈ deprecatedNoteModelOutputTSVColumnsAndTypes ↔
                         col ∈ deprecatedNoteModelOutputColumns ∧ ty = Np np_double).
  { intros ty. unfold deprecatedNoteModelOutputTSVColumnsAndTypes.
    rewrite list_elem_of_filter. simpl. unfold deprecatedNoteModelOutputColumns.
    rewrite elem_of_union, !elem_of_singleton. split.
    - intros [Hcol Hin]. split; [done |].
      apply (schema_mapping noteModelOutputTSVColumnsAndTypes _ _ noteModelOutputTSV_NoDup) in Hin.
      destruct Hcol as [-> | ->]; vm_compute in Hin; congruence.
    - intros [Hcol ->]. split; [done |].
      apply (schema_mapping noteModelOutputTSVColumnsAndTypes _ _ noteModelOutputTSV_NoDup).
      destruct Hcol as [-> | ->]; vm_compute; reflexivity. }
  split_and!; [| done |].
  - rewrite list_elem_of_fmap. split.
    + intros [[c ty] [-> Hin]]. by apply Hpairs in Hin as [? _].
    + intros Hcol. exists (col, Np np_double). split; [done |]. by apply Hpairs.
  - rewrite elem_of_removed_cols. unfold deprecatedNoteModelOutputColumns.
    rewrite elem_of_union, !elem_of_singleton. split.
    + intros [-> | ->]; split_and!; try reflexivity.
      * by left. * apply (bool_decide_unpack _); vm_compute; exact I.
      * by right. * apply (bool_decide_unpack _); vm_compute; exact I.
    + intros [[Hc Hin] Hpre]. revert Hc Hpre.
      unfold noteModelOutputTSVColumns, noteModelOutputTSVColumnsAndTypes in Hin.
      simpl in Hin. rewrite !elem_of_cons, elem_of_nil in Hin.
      repeat (destruct Hin as [-> | Hin]; [vm_compute; intuition congruence |]).
      done.
Qed.

End derived_schemas.

Section status_changes.

Lemma insert_by_first_Permutation {V} (x : string * V) (l : list (string * V)) :
  Py.insert_by_first x l ≡ₚ x :: l.
Proof.
  induction l as [| y l IH]; simpl; [done |].
  destruct (String.leb x.1 y.1); [done |]. by rewrite IH, Permutation_swap.
Qed.

Lemma sorted_by_first_Permutation {V} (l : list (string * V)) :
  Py.sorted_by_first l ≡ₚ l.
Proof.
  induction l as [| x l IH]; simpl; [done |].
  by rewrite insert_by_first_Permutation, IH.
Qed.

Lemma insert_by_first_Sorted {V} (x : string * V) (l : list (string * V)) :
  Sorted Py.by_first l → Sorted Py.by_first (Py.insert_by_first x l).
Proof.
  induction 1 as [| y l Hl IH Hhd]; simpl; [by repeat constructor |].
  destruct (String.leb x.1 y.1) eqn:Hxy.
  - by repeat constructor.
  - constructor; [done |].
    assert (Hyx : Py.by_first y x).
    { unfold Py.by_first. destruct (String.leb_total x.1 y.1); [congruence | done]. }
    destruct Hhd as [| z l Hyz]; simpl; [by constructor |].
    destruct (String.leb x.1 z.1); by constructor.
Qed.

Lemma sorted_by_first_Sorted {V} (l : list (string * V)) :
  Sorted Py.by_first (Py.sorted_by_first l).
Proof.
  induction l as [| x l IH]; simpl; [constructor |].
  by apply insert_by_first_Sorted.
Qed.

Lemma elem_of_status_changes_model_output (col : string) (ty : coltype) :
  (col, ty) ∈ noteStatusChangesModelOutputColumnsAndTypes ↔ kept col ty.
Proof.
  unfold noteStatusChangesModelOutputColumnsAndTypes, kept.
  rewrite list_elem_of_filter, not_elem_of_app, elem_of_removed_cols,
    list_elem_of_singleton. simpl. split.
  - intros [[Hrem Hid] Hin]. split_and!; [done | done | |].
    + destruct (Py.contains "NoteInterceptMin" col) eqn:Hc; [| done].
      destruct Hrem. split; [by left |]. apply list_elem_of_fmap. by exists (col, ty).
    + destruct (Py.contains "NoteInterceptMax" col) eqn:Hc; [| done].
      destruct Hrem. split; [by right |]. apply list_elem_of_fmap. by exists (col, ty).
  - intros (Hin & Hid & Hmin & Hmax). split_and!; [| done | done].
    intros [[Hc | Hc] _]; congruence.
Qed.

(** X10: the schema of the status changes has exactly these columns: the
    seven derived ones, every column of the note model output other than the
    note id and the NoteInterceptMin/NoteInterceptMax columns, and for each
    of those a column of the same type whose name ends in "_prev". *)
Theorem status_change_columns (col : string) (ty : coltype) :
  (col, ty) ∈ noteStatusChangeTSVColumnsAndTypes ↔
  (col, ty) ∈ noteStatusChangesDerivedColumnsAndTypes
  ∨ kept col ty
  ∨ ∃ col0, col = col0 ++ "_prev" ∧ kept col0 ty.
Proof.
  unfold noteStatusChangeTSVColumnsAndTypes. rewrite elem_of_app.
  rewrite sorted_by_first_Permutation.
  unfold noteStatusChangesModelOutputWithPreviousColumnsAndTypes.
  rewrite elem_of_app, elem_of_status_changes_model_output.
  change (map ?f ?l) with (f <$> l). rewrite list_elem_of_fmap.
  split.
  - intros [Hd | [Hk | [[c0 ty0] [[= -> ->] Hk]]]]; [tauto | tauto |].
    right. right. exists c0. split; [done |].
    by apply elem_of_status_changes_model_output.
  - intros [Hd | [Hk | [c0 [-> Hk]]]]; [tauto | tauto |].
    right. right. exists (c0, ty). split; [done |].
    by apply elem_of_status_changes_model_output.
Qed.

(** X11: the schema of the status changes starts with the seven derived
    columns, the note id first, and goes on with the other columns in
    ascending order of their names; none of its columns has NoteInterceptMin
    or NoteInterceptMax in its name. *)
Theorem status_change_column_order :
  take 7 noteStatusChangeTSVColumnsAndTypes = noteStatusChangesDerivedColumnsAndTypes
  ∧ head noteStatusChangesTSVColumns = Some noteIdKey
  ∧ Sorted Py.by_first (drop 7 noteStatusChangeTSVColumnsAndTypes)
  ∧ length noteStatusChangesTSVColumns
    = (7 + 2 * length noteStatusChangesModelOutputColumnsAndTypes)%nat
  ∧ Forall (λ col, Py.contains "NoteInterceptMin" col = false
                   ∧ Py.contains "NoteInterceptMax" col = false)
           noteStatusChangesTSVColumns.
Proof.
  split_and!; try reflexivity.
  - unfold noteStatusChangeTSVColumnsAndTypes.
    rewrite drop_app_length'; [| reflexivity]. apply sorted_by_first_Sorted.
  - apply (bool_decide_unpack _). vm_compute. exact I.
Qed.

End status_changes.

(** ** Argument classes *)

Section argument_classes.

Import Py.

(** X12: clearing the large arguments twice is clearing them once, for both
    methods, and the two methods commute: in either order they clear the four
    tables and the two prescoring model outputs. *)
Theorem remove_large_args_compose (self : gmap string PyVal) :
  ScoringArgs_remove_large_args_for_multiprocessing
    (ScoringArgs_remove_large_args_for_multiprocessing self)
  = ScoringArgs_remove_large_args_for_multiprocessing self
  ∧ FinalScoringArgs_remove_large_args_for_multiprocessing
      (FinalScoringArgs_remove_large_args_for_multiprocessing self)
    = FinalScoringArgs_remove_large_args_for_multiprocessing self
  ∧ ScoringArgs_remove_large_args_for_multiprocessing
      (FinalScoringArgs_remove_large_args_for_multiprocessing self)
    = FinalScoringArgs_remove_large_args_for_multiprocessing
        (ScoringArgs_remove_large_args_for_multiprocessing self)
  ∧ (∀ k, k ∈ ["noteTopics"; "ratings"; "noteStatusHistory"; "userEnrollment";
               "prescoringNoteModelOutput"; "prescoringRaterModelOutput"] →
          ScoringArgs_remove_large_args_for_multiprocessing
            (FinalScoringArgs_remove_large_args_for_multiprocessing self) !! k
          = Some PyNone).
Proof.
  split_and!.
  - apply map_eq. intros k. rewrite !ScoringArgs_remove_lookup.
    by case_bool_decide.
  - apply map_eq. intros k. rewrite !FinalScoringArgs_remove_lookup.
    by case_bool_decide.
  - apply map_eq. intros k.
    rewrite !ScoringArgs_remove_lookup, !FinalScoringArgs_remove_lookup,
      !ScoringArgs_remove_lookup.
    by repeat case_bool_decide.
  - intros k Hk. rewrite ScoringArgs_remove_lookup, FinalScoringArgs_remove_lookup.
    rewrite !elem_of_cons, elem_of_nil in Hk.
    destruct Hk as [-> | [-> | [-> | [-> | [-> | [-> | []]]]]]]; reflexivity.
Qed.

Lemma remove_large_args_compose_witness :
  ScoringArgs_remove_large_args_for_multiprocessing
    (FinalScoringArgs_remove_large_args_for_multiprocessing
       {[ "noteTopics" := PyRef 1; "prescoringMetaOutput" := PyRef 2 ]})
    !! "noteTopics" = Some PyNone.
Proof.
  apply (proj2 (proj2 (proj2 (remove_large_args_compose _)))).
  apply list_elem_of_here.
Defined.

Lemma resolve_args (c : ClassDecl) :
  c = ScoringArgs ∨ c = PrescoringArgs ∨ c = FinalScoringArgs →
  ∃ f cleared,
    resolve c remove_large_args = Some f
    ∧ (∀ self k, f self !! k
                 = if bool_decide (k ∈ cleared) then Some PyNone else self !! k)
    ∧ cleared ⊆ (dataclass_fields c).*1.
Proof.
  intros [-> | [-> | ->]].
  - exists ScoringArgs_remove_large_args_for_multiprocessing,
      ["noteTopics"; "ratings"; "noteStatusHistory"; "userEnrollment"].
    split_and!; [done | apply ScoringArgs_remove_lookup |].
    apply (bool_decide_unpack _). vm_compute. exact I.
  - exists ScoringArgs_remove_large_args_for_multiprocessing,
      ["noteTopics"; "ratings"; "noteStatusHistory"; "userEnrollment"].
    split_and!; [done | apply ScoringArgs_remove_lookup |].
    apply (bool_decide_unpack _). vm_compute. exact I.
  - exists FinalScoringArgs_remove_large_args_for_multiprocessing,
      ["ratings"; "noteStatusHistory"; "userEnrollment";
       "prescoringNoteModelOutput"; "prescoringRaterModelOutput"].
    split_and!; [done | apply FinalScoringArgs_remove_lookup |].
    apply (bool_decide_unpack _). vm_compute. exact I.
Qed.

(** X13: on an instance of any of the three argument classes, the call only
    clears: every attribute is None afterwards or is what it was, no
    attribute is removed, an attribute that is new afterwards is a field of
    the class, and on an instance that has all the fields of its class the
    set of attributes stays the same. *)
Theorem remove_large_args_only_clears (c : ClassDecl)
    (self self' : gmap string PyVal) :
  c = ScoringArgs ∨ c = PrescoringArgs ∨ c = FinalScoringArgs →
  call c remove_large_args self = Some self' →
  (∀ k, self' !! k = Some PyNone ∨ self' !! k = self !! k)
  ∧ (∀ k a, self' !! k = Some (PyRef a) → self !! k = Some (PyRef a))
  ∧ (∀ k, is_Some (self !! k) → is_Some (self' !! k))
  ∧ (∀ k, is_Some (self' !! k) →
          is_Some (self !! k) ∨ k ∈ (dataclass_fields c).*1)
  ∧ ((∀ k, k ∈ (dataclass_fields c).*1 → is_Some (self !! k)) →
     dom self' = dom self).
Proof.
  intros Hc Hcall. destruct (resolve_args c Hc) as (f & cleared & Hres & Hf & Hsub).
  unfold call in Hcall. rewrite Hres in Hcall. simpl in Hcall.
  injection Hcall as <-.
  assert (H1 : ∀ k, f self !! k = Some PyNone ∨ f self !! k = self !! k).
  { intros k. rewrite Hf. case_bool_decide; [by left | by right]. }
  assert (H3 : ∀ k, is_Some (self !! k) → is_Some (f self !! k)).
  { intros k Hk. rewrite Hf. by case_bool_decide. }
  assert (H4 : ∀ k, is_Some (f self !! k) →
                    is_Some (self !! k) ∨ k ∈ (dataclass_fields c).*1).
  { intros k. rewrite Hf. case_bool_decide as Hk; [| by left].
    intros _. right. by apply Hsub. }
  split_and!; [done | | done | done |].
  - intros k a Hk. destruct (H1 k) as [Hn | <-]; [congruence | done].
  - intros Hfields. apply set_eq. intros k. rewrite !elem_of_dom. split.
    + intros Hk. destruct (H4 k Hk) as [? | Hin]; [done | by apply Hfields].
    + apply H3.
Qed.

Lemma remove_large_args_only_clears_witness :
  dom (FinalScoringArgs_remove_large_args_for_multiprocessing
         (list_to_map ((λ f, (f.1, PyRef 1)) <$> dataclass_fields FinalScoringArgs)))
  = dom (list_to_map ((λ f, (f.1, PyRef 1)) <$> dataclass_fields FinalScoringArgs)
           : gmap string PyVal).
Proof.
  refine (proj2 (proj2 (proj2 (proj2
    (remove_large_args_only_clears FinalScoringArgs _ _ _ eq_refl)))) _).
  - right. right. reflexivity.
  - intros k Hk.
    let l := eval vm_compute in (dataclass_fields FinalScoringArgs).*1 in
    change ((dataclass_fields FinalScoringArgs).*1) with l in Hk.
    rewrite !elem_of_cons, elem_of_nil in Hk.
    destruct Hk as [-> | [-> | [-> | [-> | [-> | [-> | [-> | []]]]]]]];
      vm_compute; eauto.
Defined.

End argument_classes.

Section classes_and_enums.

Import Py.

(** X14: the method that clears the large arguments resolves, on
    ScoringArgs and on PrescoringArgs, to the body written in ScoringArgs, and
    on FinalScoringArgs to the body written there; the two bodies give the
    same result exactly on the instances whose noteTopics and prescoring
    model outputs are None already. *)
Theorem argument_method_resolution (self : gmap string PyVal) :
  call ScoringArgs remove_large_args self
  = Some (ScoringArgs_remove_large_args_for_multiprocessing self)
  ∧ call PrescoringArgs remove_large_args self
    = Some (ScoringArgs_remove_large_args_for_multiprocessing self)
  ∧ call FinalScoringArgs remove_large_args self
    = Some (FinalScoringArgs_remove_large_args_for_multiprocessing self)
  ∧ (call FinalScoringArgs remove_large_args self
     = call PrescoringArgs remove_large_args self
     ↔ self !! "noteTopics" = Some PyNone
       ∧ self !! "prescoringNoteModelOutput" = Some PyNone
       ∧ self !! "prescoringRaterModelOutput" = Some PyNone).
Proof.
  split_and!; try reflexivity.
  change (call FinalScoringArgs remove_large_args self)
    with (Some (FinalScoringArgs_remove_large_args_for_multiprocessing self)).
  change (call PrescoringArgs remove_large_args self)
    with (Some (ScoringArgs_remove_large_args_for_multiprocessing self)).
  split.
  - intros [= Heq].
    assert (Hk : ∀ k, FinalScoringArgs_remove_large_args_for_multiprocessing self !! k
                      = ScoringArgs_remove_large_args_for_multiprocessing self !! k)
      by (by intros k; rewrite Heq).
    split_and!.
    + specialize (Hk "noteTopics").
      by rewrite FinalScoringArgs_remove_lookup, ScoringArgs_remove_lookup in Hk.
    + specialize (Hk "prescoringNoteModelOutput").
      by rewrite FinalScoringArgs_remove_lookup, ScoringArgs_remove_lookup in Hk.
    + specialize (Hk "prescoringRaterModelOutput").
      by rewrite FinalScoringArgs_remove_lookup, ScoringArgs_remove_lookup in Hk.
  - intros (Ht & Hn & Hr). f_equal. apply map_eq. intros k.
    rewrite FinalScoringArgs_remove_lookup, ScoringArgs_remove_lookup.
    case_bool_decide as H1; case_bool_decide as H2; try done.
    + rewrite !elem_of_cons, elem_of_nil in H1.
      destruct H1 as [-> | [-> | [-> | [-> | [-> | []]]]]]; try done;
        exfalso; apply H2; apply (bool_decide_unpack _); vm_compute; exact I.
    + rewrite !elem_of_cons, elem_of_nil in H2.
      destruct H2 as [-> | [-> | [-> | [-> | []]]]]; try done;
        exfalso; apply H1; apply (bool_decide_unpack _); vm_compute; exact I.
Qed.

Lemma set_field_names (f : string * PyType) (fs : list (string * PyType)) :
  (set_field f fs).*1
  = if bool_decide (f.1 ∈ fs.*1) then fs.*1 else (fs.*1 ++ [f.1])%list.
Proof.
  induction fs as [| g fs IH].
  - rewrite bool_decide_eq_false_2 by apply not_elem_of_nil. done.
  - cbn [set_field]. destruct (decide (g.1 = f.1)) as [Heq | Hne].
    + rewrite bool_decide_eq_true_2 by (rewrite fmap_cons, Heq; left).
      rewrite !fmap_cons. simpl. by rewrite Heq.
    + rewrite !fmap_cons, IH. case_bool_decide as Hin.
      * rewrite bool_decide_eq_true_2 by (by right). done.
      * rewrite bool_decide_eq_false_2; [done |].
        rewrite not_elem_of_cons. split; [congruence | done].
Qed.

Lemma set_fields_names (ann fs : list (string * PyType)) :
  NoDup fs.*1 →
  NoDup (foldl (λ fs f, set_field f fs) fs ann).*1
  ∧ fs.*1 `prefix_of` (foldl (λ fs f, set_field f fs) fs ann).*1.
Proof.
  revert fs. induction ann as [| f ann IH]; intros fs Hnd; simpl; [done |].
  assert (Hstep : NoDup (set_field f fs).*1 ∧ fs.*1 `prefix_of` (set_field f fs).*1).
  { rewrite set_field_names. case_bool_decide as Hin; [done |].
    split; [| by apply prefix_app_r].
    apply NoDup_app. split_and!; [done | | apply NoDup_singleton].
    intros x Hx ->%list_elem_of_singleton. done. }
  destruct Hstep as [Hnd' Hpre]. destruct (IH _ Hnd') as [Hnd'' Hpre''].
  split; [done |]. by etrans.
Qed.

(** X15: for any class statement, the fields the dataclass gets have
    distinct names, and the fields of its base class come first, in the order
    the base has them. *)
Theorem dataclass_fields_of_subclass :
  (∀ c : ClassDecl, NoDup (dataclass_fields c).*1)
  ∧ (∀ n b ann ms,
       (dataclass_fields b).*1
         `prefix_of` (dataclass_fields (Class n (Some b) ann ms)).*1).
Proof.
  assert (Hnd : ∀ c : ClassDecl, NoDup (dataclass_fields c).*1).
  { fix IH 1. intros [n [b |] ann ms]; simpl.
    - by apply set_fields_names, IH.
    - apply set_fields_names. simpl. apply NoDup_nil_2. }
  split; [done |]. intros n b ann ms. simpl. by apply set_fields_names.
Qed.

(** X16: looking a rescoring rule up by its value finds the member of that
    value and no other, fails exactly for the values outside 1..5, and the
    names of the members are distinct. *)
Theorem rescoring_rule_lookup (v : Z) :
  (∀ r, RescoringRuleID_of_value v = Some r ↔ value r = v)
  ∧ (RescoringRuleID_of_value v = None ↔ v < 1 ∨ 5 < v)
  ∧ (∀ r r', name r = name r' ↔ r = r')
  ∧ (∀ r r', value r = value r' ↔ r = r').
Proof.
  assert (Hval : ∀ r, RescoringRuleID_of_value (value r) = Some r) by (by intros []).
  assert (Hsome : ∀ r, RescoringRuleID_of_value v = Some r ↔ value r = v).
  { intros r. split; [| by intros <-].
    unfold RescoringRuleID_of_value. intros [_ Hv]%find_some.
    by apply bool_decide_eq_true in Hv. }
  split_and!; [done | | |].
  - split.
    + intros Hnone.
      destruct (decide (v < 1 ∨ 5 < v)) as [| Hin]; [done |].
      assert (v = 1 ∨ v = 2 ∨ v = 3 ∨ v = 4 ∨ v = 5) as Hv by lia.
      destruct Hv as [-> | [-> | [-> | [-> | ->]]]]; discriminate.
    + intros Hout. destruct (RescoringRuleID_of_value v) as [r |] eqn:Hr; [| done].
      clear Hsome. unfold RescoringRuleID_of_value in Hr.
      apply find_some in Hr as [_ Hv]. apply bool_decide_eq_true in Hv.
      destruct r; simpl in Hv; lia.
  - intros r r'. split; [| by intros ->]. by destruct r, r'.
  - intros r r'. split; [| by intros ->]. by destruct r, r'.
Qed.

Lemma enrollment_states_NoDup :
  NoDup [ (earnedIn, 0); (atRisk, 1); (earnedOutNoAcknowledge, 2);
          (earnedOutAcknowledged, 3); (newUser, 4); (removed, 5) ].*1.
Proof. apply (bool_decide_unpack _). vm_compute. exact I. Qed.

(** X17: the Thrift codes of the enrollment states are the numbers 0 to 5,
    each the code of one state: two states with the same code are the same
    state, every number from 0 to 5 is the code of a state, and a string
    that is not an enrollment state has no code. *)
Theorem enrollment_state_codes :
  (∀ s s' c, enrollmentStateToThrift !! s = Some c →
             enrollmentStateToThrift !! s' = Some c → s = s')
  ∧ (∀ c, (∃ s, enrollmentStateToThrift !! s = Some c) ↔ 0 ≤ c ≤ 5)
  ∧ (∀ s, enrollmentStateToThrift !! s = None ↔
          s ∉ [earnedIn; atRisk; earnedOutNoAcknowledge; earnedOutAcknowledged;
               newUser; removed]).
Proof.
  assert (Hin : ∀ s c, enrollmentStateToThrift !! s = Some c ↔
            (s, c) ∈ [ (earnedIn, 0); (atRisk, 1); (earnedOutNoAcknowledge, 2);
                       (earnedOutAcknowledged, 3); (newUser, 4); (removed, 5) ]).
  { intros s c. apply dict_of_lookup_Some, enrollment_states_NoDup. }
  split_and!.
  - intros s s' c Hs Hs'. apply Hin in Hs, Hs'.
    rewrite !elem_of_cons, elem_of_nil in Hs, Hs'.
    destruct Hs as [Hs | [Hs | [Hs | [Hs | [Hs | [Hs | []]]]]]];
      destruct Hs' as [Hs' | [Hs' | [Hs' | [Hs' | [Hs' | [Hs' | []]]]]]];
      by simplify_eq.
  - intros c. split.
    + intros [s Hs]. apply Hin in Hs. rewrite !elem_of_cons, elem_of_nil in Hs.
      destruct Hs as [[= -> ->] | [[= -> ->] | [[= -> ->] | [[= -> ->] |
                     [[= -> ->] | [[= -> ->] | []]]]]]]; lia.
    + intros Hc.
      assert (c = 0 ∨ c = 1 ∨ c = 2 ∨ c = 3 ∨ c = 4 ∨ c = 5) as Hv by lia.
      destruct Hv as [-> | [-> | [-> | [-> | [-> | ->]]]]];
        [exists earnedIn | exists atRisk | exists earnedOutNoAcknowledge
         | exists earnedOutAcknowledged | exists newUser | exists removed];
        reflexivity.
  - intros s. unfold enrollmentStateToThrift. by rewrite dict_of_lookup_None.
Qed.

Lemma enrollment_state_codes_witness : atRisk = "atRisk".
Proof.
  apply (proj1 enrollment_state_codes atRisk "atRisk" 1); reflexivity.
Defined.

End classes_and_enums.

Section rating_columns.

Lemma ratingTSVColumns_parts :
  ratingTSVColumns
  = (take 9 ratingTSVColumns ++ helpfulTagsTSVOrder ++ notHelpfulTagsTSVOrder
       ++ [ratedOnTweetIdKey])%list.
Proof. reflexivity. Qed.

(** X18: in a row of the ratings the tag flags stand in two blocks: the
    helpful tag at index n of its TSV order is column 9 + n, and the
    not-helpful tag with enum value i is column 18 + i. *)
Theorem rating_tag_column_positions (t : string) :
  (∀ n : nat, helpfulTagsTSVOrder !! n = Some t →
              ratingTSVColumns !! (9 + n)%nat = Some t)
  ∧ (∀ i : Z, notHelpfulTagsEnumMapping !! t = Some i →
              ratingTSVColumns !! Z.to_nat (18 + i) = Some t).
Proof.
  split.
  - intros n Hn. rewrite ratingTSVColumns_parts.
    rewrite lookup_app_r by (rewrite length_take; simpl; lia).
    rewrite length_take. simpl length.
    replace (9 + n - 9 `min` 32)%nat with n by lia.
    by apply lookup_app_l_Some.
  - intros i Hi. apply enum_mapping_index in Hi as [Hpos Hi].
    rewrite ratingTSVColumns_parts.
    rewrite lookup_app_r by (rewrite length_take; simpl; lia).
    rewrite length_take. simpl length.
    rewrite lookup_app_r by (simpl; lia). simpl length.
    replace (Z.to_nat (18 + i) - 9 `min` 32 - 9)%nat with (Z.to_nat i) by lia.
    by apply lookup_app_l_Some.
Qed.

Lemma rating_tag_column_positions_witness :
  ratingTSVColumns !! Z.to_nat (18 + 5) = Some "notHelpfulOutdated".
Proof.
  apply (proj2 (rating_tag_column_positions "notHelpfulOutdated") 5). reflexivity.
Defined.

End rating_columns.
